(** * Graph sampling driver of heterograph-preprocessing

    A shallow embedding of [src/train_mlp.py] (the functions
    [parse_arguments], [set_args_based_on_dataset], [set_seeds],
    [sample_graph] and the part of [main] that leads to sampling) and of
    [src/graphsampler/graph_sampler.py] (the base class [GraphSampler]).

    The concrete sampler classes ([FullSampler], [ForestFireSampler], ...)
    and the dataset class are imported by the driver but their bodies are
    not part of the sources.  The driver is therefore modelled against an
    environment [Env] that supplies their behaviour; the two samplers that
    the specification describes completely enough are modelled from the
    specification in the modules [FullSamplerSpec] and [ForestFireSpec]. *)

From Stdlib Require Import Floats.PrimFloat.
From Corelib Require Uint63Axioms.
From Stdlib Require Import String List ZArith Bool Arith Lia.
Import ListNotations.

#[local] Set Warnings "-inexact-float".

Local Open Scope string_scope.
Local Open Scope list_scope.

(** ** Python values that travel through the driver *)

(** The global generators that [set_seeds] seeds. *)
Inductive generator : Type :=
| PyRandom      (* random          *)
| NumpyRandom   (* np.random       *)
| TorchCPU      (* torch           *)
| TorchCUDA.    (* torch.cuda      *)

Inductive py_value : Type :=
| PyNone
| PyBool (b : bool)
| PyInt (z : Z)
| PyFloat (f : PrimFloat.float)
| PyStr (s : string)
| PyGraph (addr : nat)            (* reference to a dgl graph object *)
| PyGenerator (g : generator).    (* a random generator object       *)

Definition is_graph (v : py_value) : bool :=
  match v with PyGraph _ => true | _ => false end.

Definition is_generator (v : py_value) : bool :=
  match v with PyGenerator _ => true | _ => false end.

(** [None] for an attribute argparse left at [None]. *)
Definition py_opt_str (o : option string) : py_value :=
  match o with Some s => PyStr s | None => PyNone end.

(** Python truthiness of an optional string: [None] and the empty string are falsy. *)
Definition truthy (o : option string) : bool :=
  match o with Some s => negb (String.eqb s EmptyString) | None => false end.

(** Exceptions.  [UnboundLocalError] is the interpreter's; the next three
    are the taxonomy of the specification (section 7); [OtherError] stands
    for whatever the library code outside the sources raises. *)
Inductive exn : Type :=
| UnboundLocalError (var : string)
| ConfigurationError
| IOError
| InvariantViolation
| OtherError (name : string).

(** ** Sampler classes and objects *)

(** [GraphSampler] is the base class of graph_sampler.py; the other eight
    are the names imported on line 24 of train_mlp.py. *)
Inductive sampler_class : Type :=
| GraphSampler
| FullSampler
| UniformEdgeSampler
| UniformNodeSampler
| DegreeNodeSampler
| DegreeEdgeSampler
| LabelEdgeSampler
| ForestFireSampler
| MaskGcnSampler.

(** An instance is identified by its class and the arguments its
    constructor was called with. *)
Record sampler_obj : Type := mkSampler {
  so_class  : sampler_class;
  so_args   : list py_value;
  so_kwargs : list (string * py_value)
}.

(** ** Command line *)

(** The namespace returned by [parse_arguments]. *)
Record Args : Type := mkArgs {
  device           : Z;
  dataset          : string;
  log_dir          : option string;
  checkpoint_dir   : option string;
  batch_size       : Z;
  neighbours       : Z;
  num_workers      : Z;
  num_epochs       : Z;
  hidden_dim       : Z;
  lr               : PrimFloat.float;
  log_every        : Z;
  gnn_layers       : Z;
  predictor_layers : Z;
  sampler          : string;
  method           : string;
  prob             : PrimFloat.float;
  homophilic_prob  : PrimFloat.float;
  p_f              : PrimFloat.float;
  dropout          : PrimFloat.float;
  mask_path        : option string
}.

(** What the user typed: each option is present (already converted by
    argparse's [type=]) or absent. *)
Record CmdLine : Type := mkCmdLine {
  cl_device           : option Z;
  cl_dataset          : option string;
  cl_log_dir          : option string;
  cl_checkpoint_dir   : option string;
  cl_batch_size       : option Z;
  cl_neighbours       : option Z;
  cl_num_workers      : option Z;
  cl_num_epochs       : option Z;
  cl_hidden_dim       : option Z;
  cl_lr               : option PrimFloat.float;
  cl_log_every        : option Z;
  cl_gnn_layers       : option Z;
  cl_predictor_layers : option Z;
  cl_sampler          : option string;
  cl_method           : option string;
  cl_prob             : option PrimFloat.float;
  cl_homophilic_prob  : option PrimFloat.float;
  cl_p_f              : option PrimFloat.float;
  cl_dropout          : option PrimFloat.float;
  cl_mask_path        : option string
}.

Definition or_default {A : Type} (o : option A) (d : A) : A :=
  match o with Some a => a | None => d end.

(** train_mlp.py, lines 34-59.  No option has [choices=] and no value is
    range-checked: an option keeps the value typed, or its default. *)
Definition parse_arguments (cl : CmdLine) : Args :=
  {| device           := or_default (cl_device cl) 0%Z;
     dataset          := or_default (cl_dataset cl) "ogbn-arxiv";
     log_dir          := cl_log_dir cl;
     checkpoint_dir   := cl_checkpoint_dir cl;
     batch_size       := or_default (cl_batch_size cl) 1024%Z;
     neighbours       := or_default (cl_neighbours cl) 10%Z;
     num_workers      := or_default (cl_num_workers cl) 2%Z;
     num_epochs       := or_default (cl_num_epochs cl) 100%Z;
     hidden_dim       := or_default (cl_hidden_dim cl) 256%Z;
     lr               := or_default (cl_lr cl) 0.001%float;
     log_every        := or_default (cl_log_every cl) 1%Z;
     gnn_layers       := or_default (cl_gnn_layers cl) 3%Z;
     predictor_layers := or_default (cl_predictor_layers cl) 3%Z;
     sampler          := or_default (cl_sampler cl) "full";
     method           := or_default (cl_method cl) "higher";
     prob             := or_default (cl_prob cl) 0.5%float;
     homophilic_prob  := or_default (cl_homophilic_prob cl) 0.5%float;
     p_f              := or_default (cl_p_f cl) 0.5%float;
     dropout          := or_default (cl_dropout cl) 0.0%float;
     mask_path        := cl_mask_path cl |}.

Definition with_batch_size (a : Args) (b : Z) : Args :=
  {| device := device a; dataset := dataset a; log_dir := log_dir a;
     checkpoint_dir := checkpoint_dir a; batch_size := b;
     neighbours := neighbours a; num_workers := num_workers a;
     num_epochs := num_epochs a; hidden_dim := hidden_dim a; lr := lr a;
     log_every := log_every a; gnn_layers := gnn_layers a;
     predictor_layers := predictor_layers a; sampler := sampler a;
     method := method a; prob := prob a;
     homophilic_prob := homophilic_prob a; p_f := p_f a;
     dropout := dropout a; mask_path := mask_path a |}.

Definition with_checkpoint_dir (a : Args) (d : option string) : Args :=
  {| device := device a; dataset := dataset a; log_dir := log_dir a;
     checkpoint_dir := d; batch_size := batch_size a;
     neighbours := neighbours a; num_workers := num_workers a;
     num_epochs := num_epochs a; hidden_dim := hidden_dim a; lr := lr a;
     log_every := log_every a; gnn_layers := gnn_layers a;
     predictor_layers := predictor_layers a; sampler := sampler a;
     method := method a; prob := prob a;
     homophilic_prob := homophilic_prob a; p_f := p_f a;
     dropout := dropout a; mask_path := mask_path a |}.

(** train_mlp.py, lines 26-32. *)
Definition set_args_based_on_dataset (args : Args) : Args :=
  if String.eqb (dataset args) "ogbn-products"
  then with_batch_size args 10000%Z
  else args.

(** ** The world outside the driver *)

(** A pseudo-random generator is determined by the seed it was started
    from and the number of draws made since. *)
Record gen_state : Type := mkGen {
  gen_seed : Z;
  gen_pos  : nat
}.

Definition seeded (s : Z) : gen_state := {| gen_seed := s; gen_pos := 0 |}.

Definition advance (g : gen_state) : gen_state :=
  {| gen_seed := gen_seed g; gen_pos := S (gen_pos g) |}.

(** Graph data model of the specification (section 3): nodes keep their
    identity from the original graph, edges are ordered pairs. *)
Record Graph : Type := mkGraph {
  nodes       : list nat;
  edges       : list (nat * nat);
  directed    : bool;
  labels      : list (nat * nat);     (* node, label; absent = unlabeled *)
  feature_ref : list (nat * nat)      (* node, opaque feature reference  *)
}.

(** What library code can read and write: the four global generators, the
    torch thread count and the graph objects, by address. *)
Record World : Type := mkWorld {
  py_random         : gen_state;
  np_random         : gen_state;
  torch_cpu         : gen_state;
  torch_cuda        : gen_state;
  torch_num_threads : Z;
  heap              : list Graph
}.

Definition generator_state (w : World) (g : generator) : gen_state :=
  match g with
  | PyRandom => py_random w
  | NumpyRandom => np_random w
  | TorchCPU => torch_cpu w
  | TorchCUDA => torch_cuda w
  end.

(** The dataset object, as far as the driver touches it. *)
Record Dataset : Type := mkDataset {
  ds_directed       : bool;
  ds_graph          : py_value;
  ds_original_graph : py_value
}.

Inductive torch_device : Type :=
| Cuda (index : Z)
| Cpu.

(** The calls the driver makes, in program order. *)
Inductive event : Type :=
| EvSetNumThreads (n : Z)
| EvSeed (g : generator) (seed : Z)
| EvParseArgs
| EvPrintDevice (d : torch_device)
| EvPrintArgs (a : Args)
| EvSummaryWriter (dir : option string)
| EvLoadDataset (name : string)
| EvConstruct (c : sampler_class) (args : list py_value)
              (kwargs : list (string * py_value))
| EvSampleGraph (self : sampler_obj) (original_graph : py_value)
| EvSetSampledGraph (sampled_graph : py_value)
| EvPrint (s : string).

Record Machine : Type := mkMachine {
  world : World;
  trace : list event        (* oldest first *)
}.

Definition emit (e : event) (m : Machine) : Machine :=
  {| world := world m; trace := trace m ++ [e] |}.

Definition with_world (w : World) (m : Machine) : Machine :=
  {| world := w; trace := trace m |}.

(** Behaviour of the code that is imported but not in the sources. *)
Record Env : Type := mkEnv {
  (* __init__ of the eight concrete samplers *)
  sampler_init : sampler_obj -> World -> World * option exn;
  (* sample_graph of the eight concrete samplers *)
  sampler_sample_graph :
    sampler_obj -> py_value -> World -> World * (exn + py_value);
  (* HomogenousNodeClsDataset(name) *)
  load_dataset : string -> World -> World * (exn + Dataset);
  (* torch.cuda.is_available() *)
  cuda_is_available : bool
}.

(** ** graph_sampler.py: the base class *)

Module GraphSamplerBase.

(** [__init__], lines 7-8: [pass]. *)
Definition init (self : sampler_obj) (w : World) : World * option exn :=
  (w, None).

(** [sample_graph], lines 19-20.  The body is [pass]: the call returns
    [None] for every argument and touches nothing.  The method carries
    no [@abstractmethod] decorator (the name is imported on line 1 and
    never used), so the class can be instantiated and the method
    called. *)
Definition sample_graph (self : sampler_obj) (original_graph : py_value)
    (w : World) : World * (exn + py_value) :=
  (w, inr PyNone).

End GraphSamplerBase.

(** Method resolution: the base class runs the code above, a concrete
    class runs what the environment supplies. *)
Definition run_init (env : Env) (self : sampler_obj) (w : World)
    : World * option exn :=
  match so_class self with
  | GraphSampler => GraphSamplerBase.init self w
  | _ => sampler_init env self w
  end.

Definition run_sample_graph (env : Env) (self : sampler_obj)
    (original_graph : py_value) (w : World) : World * (exn + py_value) :=
  match so_class self with
  | GraphSampler => GraphSamplerBase.sample_graph self original_graph w
  | _ => sampler_sample_graph env self original_graph w
  end.

(** ** train_mlp.py: the driver *)

(** A constructor call: the call is recorded, then [__init__] runs. *)
Definition construct (env : Env) (c : sampler_class) (args : list py_value)
    (kwargs : list (string * py_value)) (m : Machine)
    : Machine * (exn + sampler_obj) :=
  let self := mkSampler c args kwargs in
  let m1 := emit (EvConstruct c args kwargs) m in
  match run_init env self (world m1) with
  | (w, Some e) => (with_world w m1, inl e)
  | (w, None) => (with_world w m1, inr self)
  end.

(** [self.sample_graph(original_graph)]. *)
Definition call_sample_graph (env : Env) (self : sampler_obj)
    (original_graph : py_value) (m : Machine) : Machine * (exn + py_value) :=
  let m1 := emit (EvSampleGraph self original_graph) m in
  let '(w, r) := run_sample_graph env self original_graph (world m1) in
  (with_world w m1, r).

(** Modelled from the spec: [HomogenousNodeClsDataset.set_sampled_graph] is
    not in the sources.  Section 2 of the specification has the caller
    substitute the sampled graph for the original one in all downstream
    use; [main] reads [dataset.graph] for training and
    [dataset.original_graph] for evaluation. *)
Definition set_sampled_graph (d : Dataset) (sampled_graph : py_value)
    : Dataset :=
  {| ds_directed := ds_directed d;
     ds_graph := sampled_graph;
     ds_original_graph := ds_original_graph d |}.

(** Lines 69-86: the [if]/[elif] chain, which has no [else].  The result is
    the binding of the local [sampler]: [None] when no branch ran. *)
Definition select_sampler (env : Env) (dataset : Dataset) (args : Args)
    (m : Machine) : Machine * (exn + option sampler_obj) :=
  let sampler_type := sampler args in
  let bound (r : Machine * (exn + sampler_obj)) :=
    match r with
    | (m', inl e) => (m', inl e)
    | (m', inr s) => (m', inr (Some s))
    end in
  if String.eqb sampler_type "full" then
    bound (construct env FullSampler
             [py_opt_str (checkpoint_dir args)] [] m)
  else if String.eqb sampler_type "uniform_edge" then
    bound (construct env UniformEdgeSampler []
             [("p", PyFloat (prob args));
              ("graph_save_dir", py_opt_str (checkpoint_dir args));
              ("directed", PyBool (ds_directed dataset))] m)
  else if String.eqb sampler_type "uniform_node" then
    bound (construct env UniformNodeSampler []
             [("p", PyFloat (prob args));
              ("graph_save_dir", py_opt_str (checkpoint_dir args))] m)
  else if String.eqb sampler_type "degree_node" then
    bound (construct env DegreeNodeSampler []
             [("p", PyFloat (prob args));
              ("graph_save_dir", py_opt_str (checkpoint_dir args));
              ("method", PyStr (method args))] m)
  else if String.eqb sampler_type "degree_edge" then
    bound (construct env DegreeEdgeSampler []
             [("p", PyFloat (prob args));
              ("graph_save_dir", py_opt_str (checkpoint_dir args));
              ("method", PyStr (method args));
              ("directed", PyBool (ds_directed dataset))] m)
  else if String.eqb sampler_type "label_edge" then
    bound (construct env LabelEdgeSampler []
             [("p", PyFloat (prob args));
              ("homophilic_prob", PyFloat (homophilic_prob args));
              ("graph_save_dir", py_opt_str (checkpoint_dir args));
              ("directed", PyBool (ds_directed dataset))] m)
  else if String.eqb sampler_type "forest_fire" then
    bound (construct env ForestFireSampler []
             [("p", PyFloat (prob args));
              ("p_f", PyFloat (p_f args));
              ("graph_save_dir", py_opt_str (checkpoint_dir args))] m)
  else if String.eqb sampler_type "mask_gcn" then
    bound (construct env MaskGcnSampler []
             [("mask_path", py_opt_str (mask_path args));
              ("p", PyFloat (prob args));
              ("graph_save_dir", py_opt_str (checkpoint_dir args))] m)
  else (m, inr None).

(** The state of a call of [sample_graph]: the dataset object is mutable
    and shared with the caller, so it is handed back whatever happens. *)
Record Outcome : Type := mkOutcome {
  out_dataset : Dataset;
  out_machine : Machine;
  out_result  : exn + unit
}.

(** Lines 68-89. *)
Definition sample_graph (env : Env) (dataset : Dataset) (args : Args)
    (m : Machine) : Outcome :=
  match select_sampler env dataset args m with
  | (m1, inl e) => mkOutcome dataset m1 (inl e)
  | (m1, inr None) =>
      (* line 87 reads the local [sampler], which was never bound *)
      mkOutcome dataset m1 (inl (UnboundLocalError "sampler"))
  | (m1, inr (Some sampler)) =>
      match call_sample_graph env sampler (ds_graph dataset) m1 with
      | (m2, inl e) => mkOutcome dataset m2 (inl e)
      | (m2, inr sampled_graph) =>
          let m3 := emit (EvSetSampledGraph sampled_graph) m2 in
          let dataset' := set_sampled_graph dataset sampled_graph in
          mkOutcome dataset' (emit (EvPrint "Sampled the graph") m3) (inr tt)
      end
  end.

(** Lines 61-66. *)
Definition seed_generator (g : generator) (s : Z) (w : World) : World :=
  match g with
  | PyRandom =>
      mkWorld (seeded s) (np_random w) (torch_cpu w) (torch_cuda w)
              (torch_num_threads w) (heap w)
  | NumpyRandom =>
      mkWorld (py_random w) (seeded s) (torch_cpu w) (torch_cuda w)
              (torch_num_threads w) (heap w)
  | TorchCPU =>
      mkWorld (py_random w) (np_random w) (seeded s) (torch_cuda w)
              (torch_num_threads w) (heap w)
  | TorchCUDA =>
      mkWorld (py_random w) (np_random w) (torch_cpu w) (seeded s)
              (torch_num_threads w) (heap w)
  end.

Definition set_num_threads (n : Z) (w : World) : World :=
  mkWorld (py_random w) (np_random w) (torch_cpu w) (torch_cuda w) n (heap w).

Definition do_seed (g : generator) (s : Z) (m : Machine) : Machine :=
  with_world (seed_generator g s (world m)) (emit (EvSeed g s) m).

Definition set_seeds (m : Machine) : Machine :=
  let m := with_world (set_num_threads 1 (world m)) (emit (EvSetNumThreads 1) m) in
  let m := do_seed NumpyRandom 42 m in
  let m := do_seed TorchCPU 42 m in
  let m := do_seed TorchCUDA 42 m in
  do_seed PyRandom 42 m.

(** Lines 141-158 of [main]: from [parse_arguments] up to and including
    the call of [sample_graph].  An exception of the dataset loader leaves
    [main] before sampling. *)
Definition main_from_arguments (env : Env) (cl : CmdLine) (m : Machine)
    : Machine * (exn + Outcome) :=
  let m := emit EvParseArgs m in
  let args := parse_arguments cl in
  let args := set_args_based_on_dataset args in
  let args :=
    if truthy (log_dir args) && negb (truthy (checkpoint_dir args))
    then with_checkpoint_dir args (log_dir args) else args in
  let device :=
    if cuda_is_available env && (0 <=? device args)%Z
    then Cuda (device args) else Cpu in
  let m := emit (EvPrintDevice device) m in
  let m := emit (EvPrintArgs args) m in
  let m :=
    match log_dir args with
    | Some EmptyString => m                             (* writer = None *)
    | dir => emit (EvSummaryWriter dir) m
    end in
  let m := emit (EvLoadDataset (dataset args)) m in
  match load_dataset env (dataset args) (world m) with
  | (w, inl e) => (with_world w m, inl e)
  | (w, inr dataset) =>
      let o := sample_graph env dataset args (with_world w m) in
      (out_machine o, inr o)
  end.

(** Lines 138-158 of [main]: [set_seeds()] is the first statement. *)
Definition main_until_sampling (env : Env) (cl : CmdLine) (m : Machine)
    : Machine * (exn + Outcome) :=
  main_from_arguments env cl (set_seeds m).

(** ** Vocabulary for the properties of the driver *)

(** The enum of section 6 of the specification. *)
Definition sampler_names : list string :=
  ["full"; "uniform_node"; "uniform_edge"; "degree_node"; "degree_edge";
   "label_edge"; "forest_fire"; "mask_gcn"].

(** The strategy each name stands for (sections 4.2 to 4.9). *)
Definition strategy_class (name : string) : option sampler_class :=
  if String.eqb name "full" then Some FullSampler
  else if String.eqb name "uniform_node" then Some UniformNodeSampler
  else if String.eqb name "uniform_edge" then Some UniformEdgeSampler
  else if String.eqb name "degree_node" then Some DegreeNodeSampler
  else if String.eqb name "degree_edge" then Some DegreeEdgeSampler
  else if String.eqb name "label_edge" then Some LabelEdgeSampler
  else if String.eqb name "forest_fire" then Some ForestFireSampler
  else if String.eqb name "mask_gcn" then Some MaskGcnSampler
  else None.

(** The parameters of each strategy, as the headings of sections 4.2 to 4.9
    give them, with the cache directory every strategy takes. *)
Definition parameter_names (c : sampler_class) : list string :=
  match c with
  | GraphSampler => []
  | FullSampler => ["graph_save_dir"]
  | UniformNodeSampler => ["p"; "graph_save_dir"]
  | UniformEdgeSampler => ["p"; "directed"; "graph_save_dir"]
  | DegreeNodeSampler => ["p"; "method"; "graph_save_dir"]
  | DegreeEdgeSampler => ["p"; "method"; "directed"; "graph_save_dir"]
  | LabelEdgeSampler => ["p"; "homophilic_prob"; "directed"; "graph_save_dir"]
  | ForestFireSampler => ["p"; "p_f"; "graph_save_dir"]
  | MaskGcnSampler => ["mask_path"; "p"; "graph_save_dir"]
  end.

(** Where the value of each parameter comes from. *)
Definition config_value (dataset : Dataset) (args : Args) (k : string)
    : option py_value :=
  if String.eqb k "p" then Some (PyFloat (prob args))
  else if String.eqb k "method" then Some (PyStr (method args))
  else if String.eqb k "homophilic_prob"
       then Some (PyFloat (homophilic_prob args))
  else if String.eqb k "p_f" then Some (PyFloat (p_f args))
  else if String.eqb k "mask_path" then Some (py_opt_str (mask_path args))
  else if String.eqb k "directed" then Some (PyBool (ds_directed dataset))
  else if String.eqb k "graph_save_dir"
       then Some (py_opt_str (checkpoint_dir args))
  else None.

(** Names of the parameters a class takes by position.  Only [FullSampler]
    is called that way (line 71), with the directory the other seven
    receive as [graph_save_dir]. *)
Definition positional_names (c : sampler_class) : list string :=
  match c with
  | FullSampler => ["graph_save_dir"]
  | _ => []
  end.

(** The arguments of an instance, each under its parameter name. *)
Definition bound_args (o : sampler_obj) : list (string * py_value) :=
  combine (positional_names (so_class o)) (so_args o) ++ so_kwargs o.

(** The instances constructed, and the [sample_graph] calls made, in a
    stretch of the trace. *)
Fixpoint constructions (t : list event) : list sampler_obj :=
  match t with
  | [] => []
  | EvConstruct c a k :: t' => mkSampler c a k :: constructions t'
  | _ :: t' => constructions t'
  end.

Fixpoint sample_calls (t : list event) : list (sampler_obj * py_value) :=
  match t with
  | [] => []
  | EvSampleGraph self g :: t' => (self, g) :: sample_calls t'
  | _ :: t' => sample_calls t'
  end.

Fixpoint set_graph_calls (t : list event) : list py_value :=
  match t with
  | [] => []
  | EvSetSampledGraph g :: t' => g :: set_graph_calls t'
  | _ :: t' => set_graph_calls t'
  end.

(** Every value a [sample_graph] call can see: what the constructor got
    and what the call gets. *)
Definition values_received (self : sampler_obj) (g : py_value)
    : list py_value :=
  so_args self ++ map snd (so_kwargs self) ++ [g].

(** [p] lies in the closed unit interval. *)
Definition in_unit_interval (p : PrimFloat.float) : bool :=
  PrimFloat.leb 0%float p && PrimFloat.leb p 1%float.

(** What [sample_graph] does once the instance to build is known: the
    body of the function with the chain resolved. *)
Definition sample_with (env : Env) (dataset : Dataset) (self : sampler_obj)
    (m : Machine) : Outcome :=
  match construct env (so_class self) (so_args self) (so_kwargs self) m with
  | (m1, inl e) => mkOutcome dataset m1 (inl e)
  | (m1, inr sampler) =>
      match call_sample_graph env sampler (ds_graph dataset) m1 with
      | (m2, inl e) => mkOutcome dataset m2 (inl e)
      | (m2, inr sampled_graph) =>
          mkOutcome (set_sampled_graph dataset sampled_graph)
            (emit (EvPrint "Sampled the graph")
               (emit (EvSetSampledGraph sampled_graph) m2))
            (inr tt)
      end
  end.

(** The instance is of the class the name stands for, it is given exactly
    the parameters of that class (none by position beyond the named ones),
    and each has the configured value. *)
Definition configured (dataset : Dataset) (args : Args) (c : sampler_class)
    (self : sampler_obj) : Prop :=
  so_class self = c /\
  length (so_args self) = length (positional_names c) /\
  (forall k, In k (map fst (bound_args self)) <-> In k (parameter_names c)) /\
  (forall k v, In (k, v) (bound_args self) ->
               config_value dataset args k = Some v).

Ltac solve_configured :=
  split; [reflexivity | split; [reflexivity | split]];
  [ intros k; unfold bound_args; simpl; tauto
  | intros k v H; unfold bound_args in H; simpl in H;
    repeat (destruct H as [H | H]; [inversion H; subst; reflexivity | ]);
    contradiction ].

(** ** FullSampler, from the specification *)

Module FullSamplerSpec.

(** Modelled from the spec: the constructor of [FullSampler] is not in
    the sources.  It receives the cache directory and does nothing
    else. *)
Definition init (self : sampler_obj) (w : World) : World * option exn :=
  (w, None).

(** Modelled from the spec: [FullSampler.sample_graph] is not in the
    sources.  Section 4.2: it returns the original graph unchanged and
    does not allocate a copy, so the result is the reference it was
    given and the heap is the one it found. *)
Definition sample_graph (self : sampler_obj) (original_graph : py_value)
    (w : World) : World * (exn + py_value) :=
  (w, inr original_graph).

End FullSamplerSpec.

(** An environment treats [FullSampler] as the specification says. *)
Definition full_sampler_as_specified (env : Env) : Prop :=
  forall self, so_class self = FullSampler ->
    (forall w, sampler_init env self w = FullSamplerSpec.init self w) /\
    (forall g w, sampler_sample_graph env self g w
                 = FullSamplerSpec.sample_graph self g w).

(** The graph object behind a value. *)
Definition deref (w : World) (v : py_value) : option Graph :=
  match v with
  | PyGraph addr => nth_error (heap w) addr
  | _ => None
  end.

(** ** ForestFireSampler, from the specification *)

Module ForestFireSpec.

Section Primitives.

(** The random selection primitives (section 2): the outcome of a
    Bernoulli trial and of a uniform choice below a bound, in a given
    generator state; and the quota derived from [p]. *)
Variable bernoulli : PrimFloat.float -> gen_state -> bool.
Variable choice : nat -> gen_state -> nat.
Variable target_count : PrimFloat.float -> nat -> nat.

(** Modelled from the spec: the state of section 4.8, [visited] (in
    burn order, newest first) and the [frontier] queue, with the
    generator the draws come from. *)
Record fire : Type := mkFire {
  visited  : list nat;
  frontier : list nat;
  rng      : gen_state
}.

Definition mem (v : nat) (l : list nat) : bool := existsb (Nat.eqb v) l.

(** Neighbours of [u]: along the edges, and against them when the
    graph is undirected (section 3). *)
Definition neighbors (g : Graph) (u : nat) : list nat :=
  map snd (filter (fun e => Nat.eqb (fst e) u) (edges g))
  ++ (if directed g then []
      else map fst (filter (fun e => Nat.eqb (snd e) u) (edges g))).

Definition unburned (g : Graph) (s : fire) : list nat :=
  filter (fun v => negb (mem v (visited s))) (nodes g).

Definition burn_node (v : nat) (s : fire) : fire :=
  {| visited := v :: visited s;
     frontier := frontier s ++ [v];
     rng := advance (rng s) |}.

Definition skip_node (s : fire) : fire :=
  {| visited := visited s;
     frontier := frontier s;
     rng := advance (rng s) |}.

(** Modelled from the spec: a burning node ignites each unvisited
    neighbour independently with probability [p_f], until the quota is
    met. *)
Fixpoint spread (g : Graph) (p_f : PrimFloat.float) (quota : nat)
    (ns : list nat) (s : fire) : fire :=
  match ns with
  | [] => s
  | v :: ns' =>
      if Nat.leb quota (length (visited s)) then s
      else if mem v (visited s) || negb (mem v (nodes g))
      then spread g p_f quota ns' s
      else if bernoulli p_f (rng s)
      then spread g p_f quota ns' (burn_node v s)
      else spread g p_f quota ns' (skip_node s)
  end.

(** Modelled from the spec: one turn of the loop of section 4.8.  The
    loop ends ([None]) when the quota is met, or the frontier is empty
    and no node is left to seed a new fire; an empty frontier
    otherwise picks an unvisited seed. *)
Definition step (g : Graph) (p_f : PrimFloat.float) (quota : nat)
    (s : fire) : option fire :=
  if Nat.leb quota (length (visited s)) then None
  else
    match frontier s with
    | u :: rest =>
        Some (spread g p_f quota (neighbors g u)
                {| visited := visited s; frontier := rest;
                   rng := rng s |})
    | [] =>
        match unburned g s with
        | [] => None
        | c :: cs =>
            let pool := c :: cs in
            let i := choice (length pool) (rng s) mod length pool in
            let seed := nth i pool c in
            Some {| visited := seed :: visited s;
                    frontier := [seed];
                    rng := advance (rng s) |}
        end
    end.

(** The loop, with a bound on its turns: [None] when the bound is
    reached before the loop ends. *)
Fixpoint burn (fuel : nat) (g : Graph) (p_f : PrimFloat.float)
    (quota : nat) (s : fire) : option fire :=
  match fuel with
  | O => None
  | S fuel' =>
      match step g p_f quota s with
      | None => Some s
      | Some s' => burn fuel' g p_f quota s'
      end
  end.

Definition ignition (r : gen_state) : fire :=
  {| visited := []; frontier := []; rng := r |}.

(** Node-induced subgraph (section 4.1): the retained nodes keep their
    identity, an edge survives when both endpoints do. *)
Definition induced_subgraph (g : Graph) (keep : list nat) : Graph :=
  {| nodes := filter (fun v => mem v keep) (nodes g);
     edges := filter (fun e => mem (fst e) keep && mem (snd e) keep)
                     (edges g);
     directed := directed g;
     labels := filter (fun l => mem (fst l) keep) (labels g);
     feature_ref := filter (fun l => mem (fst l) keep) (feature_ref g) |}.

(** Modelled from the spec: [ForestFireSampler(p, p_f).sample_graph].
    The loop is given two turns per node and one more. *)
Definition run (g : Graph) (p p_f : PrimFloat.float) (r : gen_state)
    : option fire :=
  burn (2 * length (nodes g) + 1) g p_f
       (target_count p (length (nodes g))) (ignition r).

Definition sample_graph (g : Graph) (p p_f : PrimFloat.float)
    (r : gen_state) : option (Graph * gen_state) :=
  match run g p p_f r with
  | Some s => Some (induced_subgraph g (visited s), rng s)
  | None => None
  end.

(** What holds of the fire throughout: no node is burned twice, and
    only nodes of the graph are burned. *)
Definition well_burned (g : Graph) (s : fire) : Prop :=
  NoDup (visited s) /\ incl (visited s) (nodes g).

(** Turns the loop can still take. *)
Definition turns_left (g : Graph) (s : fire) : nat :=
  2 * (length (nodes g) - length (visited s)) + length (frontier s).

End Primitives.

End ForestFireSpec.

(** ** Statements of the specification that the code does not meet *)

(** Dispatch on this name ends in a [ConfigurationError]. *)
Definition raises_configuration_error (env : Env) (dataset : Dataset)
    (args : Args) (m : Machine) : Prop :=
  out_result (sample_graph env dataset args m) = inl ConfigurationError.

(** A probability outside the unit interval is refused with a
    [ConfigurationError] before any sampler is constructed or invoked. *)
Definition validated_before_dispatch (env : Env) (dataset : Dataset)
    (args : Args) (w : World) : Prop :=
  let o := sample_graph env dataset args (mkMachine w []) in
  in_unit_interval (prob args) = false ->
  out_result o = inl ConfigurationError /\
  constructions (trace (out_machine o)) = [] /\
  sample_calls (trace (out_machine o)) = [].

(** Every sampler invocation is handed its generator, in the call or in
    the constructor. *)
Definition generator_threaded (env : Env) (dataset : Dataset)
    (args : Args) (w : World) : Prop :=
  let o := sample_graph env dataset args (mkMachine w []) in
  forall self g, In (self, g) (sample_calls (trace (out_machine o))) ->
    existsb is_generator (values_received self g) = true.

(** The names the driver passes parameters under. *)
Definition config_names : list string :=
  ["p"; "method"; "homophilic_prob"; "p_f"; "mask_path"; "directed";
   "graph_save_dir"].

(** ** Concrete inputs *)

(** The ring of six nodes of section 8 of the specification. *)
Definition ring6 : Graph :=
  {| nodes := [0; 1; 2; 3; 4; 5];
     edges := [(0, 1); (1, 2); (2, 3); (3, 4); (4, 5); (5, 0)];
     directed := false;
     labels := [];
     feature_ref := [] |}.

Definition ring_dataset : Dataset :=
  {| ds_directed := false;
     ds_graph := PyGraph 0;
     ds_original_graph := PyGraph 0 |}.

(** A process whose generators start from arbitrary entropy. *)
Definition fresh_world (entropy : Z) : World :=
  {| py_random := seeded entropy;
     np_random := seeded (entropy + 1);
     torch_cpu := seeded (entropy + 2);
     torch_cuda := seeded (entropy + 3);
     torch_num_threads := 8;
     heap := [ring6] |}.

(** An environment in which every concrete sampler behaves like the
    [FullSampler] of the specification, and the dataset is the ring. *)
Definition full_env : Env :=
  {| sampler_init := FullSamplerSpec.init;
     sampler_sample_graph := FullSamplerSpec.sample_graph;
     load_dataset := fun _ w => (w, inr ring_dataset);
     cuda_is_available := false |}.

(** A command line with [--sampler] and [--prob] only. *)
Definition command_line (sampler : option string)
    (prob : option PrimFloat.float) : CmdLine :=
  {| cl_device := None; cl_dataset := None; cl_log_dir := None;
     cl_checkpoint_dir := None; cl_batch_size := None;
     cl_neighbours := None; cl_num_workers := None; cl_num_epochs := None;
     cl_hidden_dim := None; cl_lr := None; cl_log_every := None;
     cl_gnn_layers := None; cl_predictor_layers := None;
     cl_sampler := sampler; cl_method := None; cl_prob := prob;
     cl_homophilic_prob := None; cl_p_f := None; cl_dropout := None;
     cl_mask_path := None |}.

(** Primitives for running the forest fire by hand: every trial succeeds,
    the choice is the draw count, the quota is the whole graph. *)
Definition always_ignite (p : PrimFloat.float) (r : gen_state) : bool := true.
Definition pick_by_position (n : nat) (r : gen_state) : nat := gen_pos r.
Definition whole_graph (p : PrimFloat.float) (n : nat) : nat := n.

(** ** Vocabulary for the properties of [main] *)

(** The namespace [main] works with from line 145 on: parsed, adjusted to
    the dataset (line 142), and with the checkpoint directory defaulting
    to the log directory (lines 143-144). *)
Definition effective_args (cl : CmdLine) : Args :=
  let args := set_args_based_on_dataset (parse_arguments cl) in
  if truthy (log_dir args) && negb (truthy (checkpoint_dir args))
  then with_checkpoint_dir args (log_dir args) else args.

(** The device of line 145. *)
Definition selected_device (env : Env) (cl : CmdLine) : torch_device :=
  if cuda_is_available env && (0 <=? device (effective_args cl))%Z
  then Cuda (device (effective_args cl)) else Cpu.

(** The events only [sample_graph] produces. *)
Definition sampling_event (e : event) : bool :=
  match e with
  | EvConstruct _ _ _ | EvSampleGraph _ _ | EvSetSampledGraph _ | EvPrint _ =>
      true
  | _ => false
  end.

(** What [main] does between seeding and sampling (lines 141-154):
    the arguments are parsed, device and arguments printed, the summary
    writer created unless the log directory is the empty string, and the
    dataset loaded. *)
Definition main_prelude (env : Env) (cl : CmdLine) : list event :=
  [EvParseArgs; EvPrintDevice (selected_device env cl);
   EvPrintArgs (effective_args cl)]
  ++ match log_dir (effective_args cl) with
     | Some EmptyString => []
     | dir => [EvSummaryWriter dir]
     end
  ++ [EvLoadDataset (dataset (effective_args cl))].

(** The summary writers created in a stretch of the trace, each with its
    log directory. *)
Fixpoint summary_writers (t : list event) : list (option string) :=
  match t with
  | [] => []
  | EvSummaryWriter dir :: t' => dir :: summary_writers t'
  | _ :: t' => summary_writers t'
  end.

(** The argument namespaces printed in a stretch of the trace. *)
Fixpoint printed_args (t : list event) : list Args :=
  match t with
  | [] => []
  | EvPrintArgs a :: t' => a :: printed_args t'
  | _ :: t' => printed_args t'
  end.

(** An environment whose samplers cannot read their cache: construction
    succeeds, sampling raises [IOError]. *)
Definition unreadable_cache_env : Env :=
  {| sampler_init := fun _ w => (w, None);
     sampler_sample_graph := fun _ _ w => (w, inl IOError);
     load_dataset := fun _ w => (w, inr ring_dataset);
     cuda_is_available := true |}.

(** An environment whose dataset cannot be loaded. *)
Definition missing_dataset_env : Env :=
  {| sampler_init := fun _ w => (w, None);
     sampler_sample_graph := fun _ g w => (w, inr g);
     load_dataset := fun name w => (w, inl (OtherError "KeyError"));
     cuda_is_available := false |}.

(** A command line with [--log_dir] and [--checkpoint_dir] besides the
    sampler. *)
Definition command_line_dirs (sampler log ckpt : option string) : CmdLine :=
  {| cl_device := None; cl_dataset := None; cl_log_dir := log;
     cl_checkpoint_dir := ckpt; cl_batch_size := None;
     cl_neighbours := None; cl_num_workers := None; cl_num_epochs := None;
     cl_hidden_dim := None; cl_lr := None; cl_log_every := None;
     cl_gnn_layers := None; cl_predictor_layers := None;
     cl_sampler := sampler; cl_method := None; cl_prob := None;
     cl_homophilic_prob := None; cl_p_f := None; cl_dropout := None;
     cl_mask_path := None |}.

(** ** train_mlp.py: [train], [eval] and the epoch loop of [main] *)

Module Training.

(** The exceptions the interpreter raises in this part of the code, and
    [LibraryError] for those of torch and dgl. *)
Inductive error : Type :=
| UnboundLocalError (var : string)
| IndexError
| KeyError (key : string)
| ZeroDivisionError
| LibraryError (name : string).

(** Subscription of a dictionary: [KeyError] on a missing key. *)
Fixpoint getitem {V : Type} (d : list (string * V)) (k : string)
    : error + V :=
  match d with
  | [] => inl (KeyError k)
  | (k', v) :: d' => if String.eqb k k' then inr v else getitem d' k
  end.

(** Subscription of a list by [-1]: [IndexError] on the empty list. *)
Definition last_item {A : Type} (l : list A) : error + A :=
  match rev l with
  | [] => inl IndexError
  | a :: _ => inr a
  end.

(** Conversion of a Python [int] that counts batches to [float]. *)
Definition float_of_nat (n : nat) : PrimFloat.float :=
  PrimFloat.of_uint63 (Uint63Axioms.of_Z (Z.of_nat n)).

Definition ends_with_slash (a : string) : bool :=
  String.eqb (String.substring (String.length a - 1) 1 a) "/".

(** [os.path.join(a, b)] of posixpath. *)
Definition path_join (a b : string) : string :=
  if String.prefix "/" b then b
  else if String.eqb a EmptyString || ends_with_slash a
  then a ++ b else a ++ "/" ++ b.

(** Statements that read and write a state and may raise. *)
Definition M (S A : Type) : Type := S -> S * (error + A).

Definition ret {S A : Type} (a : A) : M S A := fun s => (s, inr a).

Definition raise {S A : Type} (e : error) : M S A := fun s => (s, inl e).

Definition bind {S A B : Type} (c : M S A) (k : A -> M S B) : M S B :=
  fun s =>
    match c s with
    | (s', inl e) => (s', inl e)
    | (s', inr a) => k a s'
    end.

Definition result {S A : Type} (r : error + A) : M S A := fun s => (s, r).

Notation "x <- c ;; k" := (bind c (fun x => k))
  (at level 61, c at next level, right associativity).
Notation "c ;; k" := (bind c (fun _ => k))
  (at level 61, right associativity).

Section Model.

(** Tensors, the state of the two modules with their optimizer, and the
    state dictionary of a module are torch's. *)
Variable Tensor : Type.
Variable Weights : Type.
Variable StateDict : Type.

(** A message flow graph, as far as [train] reads it. *)
Record Block : Type := mkBlock {
  dstdata : list (string * Tensor)
}.

(** What the data loader yields. *)
Record Batch : Type := mkBatch {
  input_nodes  : Tensor;
  output_nodes : Tensor;
  mfgs         : list Block
}.

(** Behaviour of the torch objects [main] builds on lines 160-173, and of
    the clocks.  The calls that compute a tensor or a number may raise;
    the mode switches, [zero_grad], [backward], [optimizer.step] and
    [state_dict] are taken to return.  Fewer than 2^63 batches are
    counted. *)
Record Torch : Type := mkTorch {
  (* model.train() / model.eval() *)
  model_mode : bool -> Weights -> Weights;
  (* predictor.train() / predictor.eval() *)
  predictor_mode : bool -> Weights -> Weights;
  (* optimizer.zero_grad() *)
  zero_grad : Weights -> Weights;
  (* model(feat) *)
  model_call : Weights -> Tensor -> error + Tensor;
  (* predictor(x) *)
  predictor_call : Weights -> Tensor -> error + Tensor;
  (* loss_fn(output_predictions, output_labels.view(-1)), as a number *)
  loss_fn : Tensor -> Tensor -> error + PrimFloat.float;
  (* loss.backward() for the loss of these features and labels *)
  backward : Weights -> Tensor -> Tensor -> Weights;
  (* optimizer.step() *)
  optimizer_step : Weights -> Weights;
  (* copy.deepcopy(model.state_dict()) *)
  state_dict : Weights -> StateDict;
  (* graph.ndata['feat'] *)
  ndata_feat : py_value -> error + Tensor;
  (* evaluator.eval(infer_embs) *)
  evaluator_eval : Weights -> Tensor -> error + PrimFloat.float;
  (* the batches the train loader yields when iterated in an epoch *)
  epoch_batches : Z -> list Batch;
  (* the n-th reading of time.process_time() and of time.time() *)
  process_time : nat -> PrimFloat.float;
  wall_time : nat -> PrimFloat.float
}.

(** [result_dict] of [main]; the three optional entries are absent until
    a validation score beats the best so far. *)
Record ResultDict : Type := mkResultDict {
  rd_args              : Args;
  rd_epoch_times       : list PrimFloat.float;
  rd_epoch_times_clock : list PrimFloat.float;
  rd_val_perf          : option PrimFloat.float;
  rd_gnn               : option StateDict;
  rd_epoch             : option Z
}.

(** The calls with an effect outside the functions, in program order. *)
Inductive action : Type :=
| AcModelMode (training : bool)
| AcPredictorMode (training : bool)
| AcZeroGrad
| AcBackward
| AcOptimizerStep
| AcPostfix (loss : PrimFloat.float)
| AcPrintEpoch (epoch : Z)
| AcPrintLoss (loss : PrimFloat.float)
| AcPrintScore (score : PrimFloat.float)
| AcAddScalar (tag : string) (value : PrimFloat.float) (epoch : Z)
| AcSave (result : ResultDict) (path : string)
| AcWriterClose
| AcPrintResult (result : ResultDict).

(** The modules with their optimizer, and what has been done so far. *)
Record Learner : Type := mkLearner {
  weights : Weights;
  actions : list action       (* oldest first *)
}.

Definition act (a : action) : M Learner unit :=
  fun l => (mkLearner (weights l) (actions l ++ [a]), inr tt).

Definition update (f : Weights -> Weights) : M Learner unit :=
  fun l => (mkLearner (f (weights l)) (actions l), inr tt).

Definition read {A : Type} (f : Weights -> error + A) : M Learner A :=
  fun l => (l, f (weights l)).

(** Lines 100-120: the body of the loop of [train]. *)
Definition train_batch (T : Torch) (b : Batch) (loss_accum : PrimFloat.float)
    : M Learner PrimFloat.float :=
  act AcZeroGrad ;; update (zero_grad T) ;;
  last <- result (last_item (mfgs b)) ;;
  feat <- result (getitem (dstdata last) "feat") ;;
  x <- read (fun w => model_call T w feat) ;;
  output_predictions <- read (fun w => predictor_call T w x) ;;
  last' <- result (last_item (mfgs b)) ;;
  output_labels <- result (getitem (dstdata last') "label") ;;
  loss <- result (loss_fn T output_predictions output_labels) ;;
  act AcBackward ;; update (fun w => backward T w feat output_labels) ;;
  act AcOptimizerStep ;; update (optimizer_step T) ;;
  act (AcPostfix loss) ;;
  ret (PrimFloat.add loss_accum loss).

(** Lines 99-120: the loop over [enumerate(tq)].  [step] is the local of
    that name: unbound ([None]) until the first batch. *)
Fixpoint train_loop (T : Torch) (dataloader : list Batch) (k : nat)
    (step : option nat) (loss_accum : PrimFloat.float)
    : M Learner (option nat * PrimFloat.float) :=
  match dataloader with
  | [] => ret (step, loss_accum)
  | b :: rest =>
      loss_accum' <- train_batch T b loss_accum ;;
      train_loop T rest (S k) (Some k) loss_accum'
  end.

(** Lines 91-123.  [loss_accum] starts as the integer 0, which the first
    addition converts to the float 0. *)
Definition train (T : Torch) (dataloader : list Batch)
    : M Learner PrimFloat.float :=
  act (AcModelMode true) ;; update (model_mode T true) ;;
  act (AcPredictorMode true) ;; update (predictor_mode T true) ;;
  r <- train_loop T dataloader 0 None 0%float ;;
  match fst r with
  | None => raise (UnboundLocalError "step")
  | Some step => ret (PrimFloat.div (snd r) (float_of_nat (step + 1)))
  end.

(** Lines 125-136. *)
Definition eval (T : Torch) (dataset : Dataset) : M Learner PrimFloat.float :=
  act (AcModelMode false) ;; update (model_mode T false) ;;
  act (AcPredictorMode false) ;; update (predictor_mode T false) ;;
  feat <- result (ndata_feat T (ds_original_graph dataset)) ;;
  infer_embs <- read (fun w => model_call T w feat) ;;
  read (fun w => evaluator_eval T w infer_embs).

(** The locals of [main] that the epoch loop changes. *)
Record Run : Type := mkRun {
  learner       : Learner;
  clock_reads   : nat;
  result_dict   : ResultDict;
  best_val_perf : PrimFloat.float
}.

Definition lift {A : Type} (c : M Learner A) : M Run A :=
  fun r =>
    let '(l, a) := c (learner r) in
    (mkRun l (clock_reads r) (result_dict r) (best_val_perf r), a).

Definition perform (a : action) : M Run unit := lift (act a).

Definition read_clock (clock : nat -> PrimFloat.float)
    : M Run PrimFloat.float :=
  fun r =>
    (mkRun (learner r) (S (clock_reads r)) (result_dict r) (best_val_perf r),
     inr (clock (clock_reads r))).

Definition get_result : M Run ResultDict := fun r => (r, inr (result_dict r)).

Definition set_result (d : ResultDict) : M Run unit :=
  fun r => (mkRun (learner r) (clock_reads r) d (best_val_perf r), inr tt).

Definition get_best : M Run PrimFloat.float :=
  fun r => (r, inr (best_val_perf r)).

Definition set_best (v : PrimFloat.float) : M Run unit :=
  fun r => (mkRun (learner r) (clock_reads r) (result_dict r) v, inr tt).

Definition get_weights : M Run Weights :=
  fun r => (r, inr (weights (learner r))).

Definition when (b : bool) (c : M Run unit) : M Run unit :=
  if b then c else ret tt.

(** [writer] is [None] exactly when the log directory is the empty
    string (lines 149-152). *)
Definition writer_created (args : Args) : bool :=
  match log_dir args with
  | Some EmptyString => false
  | _ => true
  end.

(** [torch.save(result_dict, os.path.join(args.checkpoint_dir,
    "checkpoint.pt"))] under [if args.checkpoint_dir]. *)
Definition save_checkpoint (args : Args) : M Run unit :=
  match checkpoint_dir args with
  | Some dir =>
      when (truthy (Some dir))
        (d <- get_result ;; perform (AcSave d (path_join dir "checkpoint.pt")))
  | None => ret tt
  end.

(** Lines 200-204: a score above the best so far is recorded, with the
    state of the model and the epoch. *)
Definition record_best (T : Torch) (epoch : Z) (val_perf : PrimFloat.float)
    : M Run unit :=
  best <- get_best ;;
  when (PrimFloat.ltb best val_perf)
    (set_best val_perf ;;
     d <- get_result ;;
     w <- get_weights ;;
     set_result
       (mkResultDict (rd_args d) (rd_epoch_times d) (rd_epoch_times_clock d)
          (Some val_perf) (Some (state_dict T w)) (Some epoch))).

(** Lines 206-209. *)
Definition append_times (t t_clock : PrimFloat.float) : M Run unit :=
  d <- get_result ;;
  set_result
    (mkResultDict (rd_args d) (rd_epoch_times d ++ [t])
       (rd_epoch_times_clock d ++ [t_clock])
       (rd_val_perf d) (rd_gnn d) (rd_epoch d)).

(** Lines 183-213: the body of the epoch loop. *)
Definition epoch_body (T : Torch) (args : Args) (dataset : Dataset)
    (epoch : Z) : M Run unit :=
  start <- read_clock (process_time T) ;;
  start_clock <- read_clock (wall_time T) ;;
  perform (AcPrintEpoch epoch) ;;
  loss <- lift (train T (epoch_batches T epoch)) ;;
  perform (AcPrintLoss loss) ;;
  when (writer_created args) (perform (AcAddScalar "train/loss" loss epoch)) ;;
  (if (log_every args =? 0)%Z then raise ZeroDivisionError else ret tt) ;;
  when ((epoch mod log_every args =? 0)%Z)
    (val_perf <- lift (eval T dataset) ;;
     perform (AcPrintScore val_perf) ;;
     when (writer_created args)
       (perform (AcAddScalar "valid/score" val_perf epoch)) ;;
     record_best T epoch val_perf) ;;
  now <- read_clock (process_time T) ;;
  now_clock <- read_clock (wall_time T) ;;
  append_times (PrimFloat.sub now start) (PrimFloat.sub now_clock start_clock) ;;
  save_checkpoint args.

Fixpoint for_each (epochs : list Z) (body : Z -> M Run unit) : M Run unit :=
  match epochs with
  | [] => ret tt
  | epoch :: rest => body epoch ;; for_each rest body
  end.

(** [range(n)]. *)
Definition range (n : Z) : list Z := map Z.of_nat (seq 0 (Z.to_nat n)).

(** Lines 175-181: the locals before the loop. *)
Definition initial_run (args : Args) (l : Learner) : Run :=
  {| learner := l;
     clock_reads := 0;
     result_dict := mkResultDict args [] [] None None None;
     best_val_perf := PrimFloat.neg_infinity |}.

(** Lines 182-221 of [main]. *)
Definition main_epochs (T : Torch) (args : Args) (dataset : Dataset)
    : M Run unit :=
  for_each (range (num_epochs args)) (epoch_body T args dataset) ;;
  when (writer_created args) (perform AcWriterClose) ;;
  save_checkpoint args ;;
  d <- get_result ;;
  perform (AcPrintResult d).

(** What [main] does after the loop (lines 215-221): the writer is
    closed, the result saved under [if args.checkpoint_dir], and
    printed. *)
Definition closing_actions (args : Args) (d : ResultDict) : list action :=
  (if writer_created args then [AcWriterClose] else [])
  ++ match checkpoint_dir args with
     | Some dir =>
         if truthy (Some dir)
         then [AcSave d (path_join dir "checkpoint.pt")] else []
     | None => []
     end
  ++ [AcPrintResult d].

(** Counting in a stretch of the actions. *)
Definition is_optimizer_step (a : action) : bool :=
  match a with AcOptimizerStep => true | _ => false end.

Definition is_zero_grad (a : action) : bool :=
  match a with AcZeroGrad => true | _ => false end.

Definition is_save (a : action) : bool :=
  match a with AcSave _ _ => true | _ => false end.

Definition is_evaluation (a : action) : bool :=
  match a with AcPrintScore _ => true | _ => false end.

Definition count (f : action -> bool) (t : list action) : nat :=
  length (filter f t).

(** The actions of [train] and [eval]. *)
Definition is_learning (a : action) : bool :=
  match a with
  | AcModelMode _ | AcPredictorMode _ | AcZeroGrad | AcBackward
  | AcOptimizerStep | AcPostfix _ => true
  | _ => false
  end.

(** The three optional entries of [result_dict] go together: absent while
    no score has beaten minus infinity, otherwise the best score, a model
    state and the epoch it was seen at, one of [range(n)] at which the
    evaluation runs. *)
Definition consistent (n every : Z) (r : Run) : Prop :=
  match rd_val_perf (result_dict r), rd_gnn (result_dict r),
        rd_epoch (result_dict r) with
  | None, None, None => best_val_perf r = PrimFloat.neg_infinity
  | Some v, Some _, Some e =>
      best_val_perf r = v /\ (0 <= e < n)%Z /\ (e mod every = 0)%Z
  | _, _, _ => False
  end.

(** The losses shown on the progress bar. *)
Fixpoint postfix_losses (t : list action) : list PrimFloat.float :=
  match t with
  | [] => []
  | AcPostfix loss :: t' => loss :: postfix_losses t'
  | _ :: t' => postfix_losses t'
  end.

End Model.

Arguments model_mode {Tensor Weights StateDict} _.
Arguments predictor_mode {Tensor Weights StateDict} _.
Arguments zero_grad {Tensor Weights StateDict} _.
Arguments model_call {Tensor Weights StateDict} _.
Arguments predictor_call {Tensor Weights StateDict} _.
Arguments loss_fn {Tensor Weights StateDict} _.
Arguments backward {Tensor Weights StateDict} _.
Arguments optimizer_step {Tensor Weights StateDict} _.
Arguments state_dict {Tensor Weights StateDict} _.
Arguments ndata_feat {Tensor Weights StateDict} _.
Arguments evaluator_eval {Tensor Weights StateDict} _.
Arguments epoch_batches {Tensor Weights StateDict} _.
Arguments process_time {Tensor Weights StateDict} _.
Arguments wall_time {Tensor Weights StateDict} _.
Arguments mkBlock {Tensor} _.
Arguments dstdata {Tensor} _.
Arguments mkBatch {Tensor} _ _ _.
Arguments mfgs {Tensor} _.
Arguments weights {Weights StateDict} _.
Arguments actions {Weights StateDict} _.
Arguments mkLearner {Weights StateDict} _ _.
Arguments learner {Weights StateDict} _.
Arguments result_dict {Weights StateDict} _.
Arguments best_val_perf {Weights StateDict} _.
Arguments clock_reads {Weights StateDict} _.
Arguments train_batch {Tensor Weights StateDict} _ _ _ _.
Arguments train_loop {Tensor Weights StateDict} _ _ _ _ _ _.
Arguments train {Tensor Weights StateDict} _ _ _.
Arguments eval {Tensor Weights StateDict} _ _ _.
Arguments epoch_body {Tensor Weights StateDict} _ _ _ _ _.
Arguments main_epochs {Tensor Weights StateDict} _ _ _ _.
Arguments initial_run {Weights StateDict} _ _.
Arguments for_each {Weights StateDict} _ _ _.
Arguments save_checkpoint {Weights StateDict} _ _.
Arguments postfix_losses {StateDict} _.
Arguments count {StateDict} _ _.
Arguments closing_actions {StateDict} _ _.
Arguments is_learning {StateDict} _.
Arguments consistent {Weights StateDict} _ _ _.
Arguments is_optimizer_step {StateDict} _.
Arguments is_zero_grad {StateDict} _.
Arguments is_save {StateDict} _.
Arguments is_evaluation {StateDict} _.
Arguments rd_val_perf {StateDict} _.
Arguments rd_gnn {StateDict} _.
Arguments rd_epoch {StateDict} _.
Arguments rd_epoch_times {StateDict} _.
Arguments rd_epoch_times_clock {StateDict} _.
Arguments rd_args {StateDict} _.

End Training.

(** Torch objects small enough to run by hand: tensors and weights are
    numbers, an optimizer step adds one to the weights, every loss is 2
    and the validation score is the number of steps taken. *)
Definition toy_torch (batches : Z -> list (Training.Batch nat))
    : Training.Torch nat nat nat :=
  {| Training.model_mode := fun _ w => w;
     Training.predictor_mode := fun _ w => w;
     Training.zero_grad := fun w => w;
     Training.model_call := fun _ x => inr x;
     Training.predictor_call := fun _ x => inr x;
     Training.loss_fn := fun _ _ => inr 2%float;
     Training.backward := fun w _ _ => w;
     Training.optimizer_step := S;
     Training.state_dict := fun w => w;
     Training.ndata_feat := fun _ => inr 0;
     Training.evaluator_eval := fun w _ => inr (Training.float_of_nat w);
     Training.epoch_batches := batches;
     Training.process_time := Training.float_of_nat;
     Training.wall_time := Training.float_of_nat |}.

(** A batch whose last block has features and labels, one with no block
    at all, and one whose block lacks the labels. *)
Definition whole_batch : Training.Batch nat :=
  Training.mkBatch 0 0
    [Training.mkBlock [("feat", 1)];
     Training.mkBlock [("feat", 2); ("label", 3)]].

Definition blockless_batch : Training.Batch nat := Training.mkBatch 0 0 [].

Definition unlabeled_batch : Training.Batch nat :=
  Training.mkBatch 0 0 [Training.mkBlock [("feat", 2)]].

Definition new_learner : Training.Learner nat nat :=
  Training.mkLearner 0 [].

(** A command line with [--num_epochs], [--log_every] and
    [--checkpoint_dir] only. *)
Definition command_line_training (epochs every : option Z)
    (ckpt : option string) : CmdLine :=
  {| cl_device := None; cl_dataset := None; cl_log_dir := None;
     cl_checkpoint_dir := ckpt; cl_batch_size := None;
     cl_neighbours := None; cl_num_workers := None; cl_num_epochs := epochs;
     cl_hidden_dim := None; cl_lr := None; cl_log_every := every;
     cl_gnn_layers := None; cl_predictor_layers := None;
     cl_sampler := None; cl_method := None; cl_prob := None;
     cl_homophilic_prob := None; cl_p_f := None; cl_dropout := None;
     cl_mask_path := None |}.

(** A loader that yields two whole batches in every epoch. *)
Definition two_batches (epoch : Z) : list (Training.Batch nat) :=
  [whole_batch; whole_batch].

(** ** Basic facts about dispatch *)

Lemma strategy_class_names (name : string) :
  In name sampler_names <-> strategy_class name <> None.
Proof.
  unfold strategy_class, sampler_names; split.
  - simpl; intros H.
    repeat (destruct H as [H | H]; [subst name; cbn; discriminate | ]).
    contradiction.
  - intros H. simpl.
    repeat match type of H with
    | context [String.eqb ?a ?b] =>
        destruct (String.eqb_spec a b); [subst; tauto | ]
    end.
    congruence.
Qed.

Lemma strategy_class_none (name : string) :
  ~ In name sampler_names -> strategy_class name = None.
Proof.
  intros H. destruct (strategy_class name) eqn:E; [ | reflexivity].
  exfalso; apply H, strategy_class_names; congruence.
Qed.

(** Outside the enum every comparison of the chain is false. *)
Lemma select_sampler_unbound env dataset args m :
  ~ In (sampler args) sampler_names ->
  select_sampler env dataset args m = (m, inr None).
Proof.
  intros H. unfold select_sampler.
  repeat match goal with
  | |- context [String.eqb ?a ?b] =>
      destruct (String.eqb_spec a b) as [E | _];
      [exfalso; apply H; rewrite E; simpl; tauto | ]
  end.
  reflexivity.
Qed.

Lemma sample_graph_unbound env dataset args m :
  ~ In (sampler args) sampler_names ->
  sample_graph env dataset args m
  = mkOutcome dataset m (inl (UnboundLocalError "sampler")).
Proof.
  intros H. unfold sample_graph.
  rewrite (select_sampler_unbound env dataset args m H). reflexivity.
Qed.

Lemma sample_graph_recognized env dataset args m c :
  strategy_class (sampler args) = Some c ->
  exists self,
    configured dataset args c self /\
    sample_graph env dataset args m = sample_with env dataset self m.
Proof.
  unfold strategy_class, sample_graph, select_sampler, sample_with.
  intros H.
  repeat match type of H with
  | context [String.eqb ?a ?b] =>
      destruct (String.eqb_spec a b) as [? | ?]
  end;
  cbv iota in H;
  try discriminate H;
  injection H as <-;
  repeat match goal with
  | E : sampler args = _ |- _ => rewrite ?E; clear E
  end;
  cbn [String.eqb Ascii.eqb Bool.eqb];
  match goal with
  | |- context [construct ?e ?c ?a ?k ?m] => exists (mkSampler c a k)
  end;
  (split; [solve_configured | ]);
  cbn [so_class so_args so_kwargs];
  match goal with
  | |- context [construct ?e ?c ?a ?k ?m] =>
      destruct (construct e c a k m) as [m1 [e1 | s1]]
  end; reflexivity.
Qed.

Lemma self_eta (self : sampler_obj) :
  mkSampler (so_class self) (so_args self) (so_kwargs self) = self.
Proof. destruct self; reflexivity. Qed.

(** The three ways a dispatched call can end: the constructor raises, the
    sampler raises, or the sampled graph is installed. *)
Lemma sample_with_cases env dataset self m :
  let g := ds_graph dataset in
  let m1 :=
    emit (EvConstruct (so_class self) (so_args self) (so_kwargs self)) m in
  (exists w e,
      run_init env self (world m) = (w, Some e) /\
      sample_with env dataset self m
      = mkOutcome dataset (with_world w m1) (inl e))
  \/
  (exists w w2 e,
      run_init env self (world m) = (w, None) /\
      run_sample_graph env self g w = (w2, inl e) /\
      sample_with env dataset self m
      = mkOutcome dataset
          (with_world w2 (emit (EvSampleGraph self g) (with_world w m1)))
          (inl e))
  \/
  (exists w w2 v,
      run_init env self (world m) = (w, None) /\
      run_sample_graph env self g w = (w2, inr v) /\
      sample_with env dataset self m
      = mkOutcome (set_sampled_graph dataset v)
          (emit (EvPrint "Sampled the graph")
             (emit (EvSetSampledGraph v)
                (with_world w2
                   (emit (EvSampleGraph self g) (with_world w m1)))))
          (inr tt)).
Proof.
  cbv zeta. unfold sample_with, construct, call_sample_graph.
  rewrite self_eta. cbn [world emit with_world].
  destruct (run_init env self (world m)) as [w [e | ]].
  - left. exists w, e. split; reflexivity.
  - right. cbn [world emit with_world].
    destruct (run_sample_graph env self (ds_graph dataset) w)
      as [w2 [e | v]] eqn:Hs.
    + left. exists w, w2, e. repeat split; exact Hs.
    + right. exists w, w2, v. repeat split; exact Hs.
Qed.

(** The events a dispatched call adds to the trace. *)
Lemma sample_with_trace env dataset self m :
  exists tail,
    trace (out_machine (sample_with env dataset self m))
    = trace m
      ++ EvConstruct (so_class self) (so_args self) (so_kwargs self) :: tail
    /\ constructions tail = []
    /\ (forall x, In x (sample_calls tail) -> x = (self, ds_graph dataset))
    /\ (snd (run_init env self (world m)) = None ->
        sample_calls tail = [(self, ds_graph dataset)]).
Proof.
  destruct (sample_with_cases env dataset self m)
    as [(w & e & Hi & ->) | [(w & w2 & e & Hi & Hs & ->)
                            | (w & w2 & v & Hi & Hs & ->)]];
    cbn [out_machine trace emit with_world]; rewrite Hi; cbn [snd].
  - exists []. repeat split; try reflexivity.
    + intros x [].
    + discriminate.
  - exists [EvSampleGraph self (ds_graph dataset)].
    rewrite <- !app_assoc. repeat split; try reflexivity.
    intros x [<- | []]; reflexivity.
  - exists [EvSampleGraph self (ds_graph dataset); EvSetSampledGraph v;
            EvPrint "Sampled the graph"].
    rewrite <- !app_assoc. repeat split; try reflexivity.
    intros x [<- | []]; reflexivity.
Qed.

(** What the driver adds to the trace, whatever the sampler name. *)
Lemma sample_graph_tail env dataset args m :
  exists tail,
    trace (out_machine (sample_graph env dataset args m)) = trace m ++ tail
    /\ (forall self, In self (constructions tail) ->
          exists c, strategy_class (sampler args) = Some c /\
                    configured dataset args c self)
    /\ (forall self g, In (self, g) (sample_calls tail) ->
          g = ds_graph dataset /\ In self (constructions tail)).
Proof.
  destruct (strategy_class (sampler args)) as [c | ] eqn:E.
  - destruct (sample_graph_recognized env dataset args m c E)
      as (self & Hc & ->).
    destruct (sample_with_trace env dataset self m)
      as (tail & -> & Hk & Hs & _).
    eexists; split; [reflexivity | ].
    cbn [constructions sample_calls]. rewrite Hk, self_eta. split.
    + intros s [<- | []]. exists c; split; [reflexivity | exact Hc].
    + intros s g H. apply Hs in H. injection H as -> ->.
      split; [reflexivity | left; reflexivity].
  - rewrite sample_graph_unbound.
    + exists []. cbn. rewrite app_nil_r. repeat split; contradiction.
    + intros H. apply strategy_class_names in H. contradiction.
Qed.

(** ** The forest fire of the specification: invariant and progress *)

Section ForestFireFacts.

Import ForestFireSpec.

Variable bernoulli : PrimFloat.float -> gen_state -> bool.
Variable choice : nat -> gen_state -> nat.
Variable g : Graph.
Variable p_f : PrimFloat.float.
Variable quota : nat.

Lemma mem_In (v : nat) (l : list nat) : mem v l = true <-> In v l.
Proof.
  unfold mem. rewrite existsb_exists. split.
  - intros (x & Hx & E). apply Nat.eqb_eq in E. now subst.
  - intros H. exists v. split; [exact H | apply Nat.eqb_refl].
Qed.

Lemma well_burned_length (s : fire) :
  well_burned g s -> length (visited s) <= length (nodes g).
Proof. intros [Hn Hi]. now apply NoDup_incl_length. Qed.

Lemma burn_node_well_burned (v : nat) (s : fire) :
  well_burned g s ->
  mem v (visited s) || negb (mem v (nodes g)) = false ->
  well_burned g (burn_node v s).
Proof.
  intros [Hn Hi] H. apply orb_false_iff in H as [Hv Hg].
  apply negb_false_iff, mem_In in Hg.
  split; cbn.
  - constructor; [ | exact Hn].
    intros Hin. apply mem_In in Hin. congruence.
  - intros x [<- | Hx]; [exact Hg | now apply Hi].
Qed.

(** Igniting neighbours keeps the invariant and never adds turns: each
    node it burns joins the frontier once. *)
Lemma spread_invariant (ns : list nat) :
  forall s, well_burned g s ->
    well_burned g (spread bernoulli g p_f quota ns s) /\
    turns_left g (spread bernoulli g p_f quota ns s) <= turns_left g s.
Proof.
  induction ns as [ | v ns IH]; intros s Hs; cbn [spread].
  - split; [exact Hs | apply Nat.le_refl].
  - destruct (Nat.leb quota (length (visited s)));
      [split; [exact Hs | apply Nat.le_refl] | ].
    destruct (mem v (visited s) || negb (mem v (nodes g))) eqn:Hv;
      [now apply IH | ].
    destruct (bernoulli p_f (rng s)).
    + pose proof (burn_node_well_burned v s Hs Hv) as Hb.
      destruct (IH _ Hb) as [Hw Hl]. split; [exact Hw | ].
      apply well_burned_length in Hb.
      unfold turns_left in *. cbn in Hl, Hb.
      rewrite length_app in Hl. cbn in Hl. lia.
    + assert (Hk : well_burned g (skip_node s)) by exact Hs.
      destruct (IH _ Hk) as [Hw Hl]. split; [exact Hw | exact Hl].
Qed.

(** Every turn of the loop uses up at least one of the turns left. *)
Lemma step_progress (s s' : fire) :
  well_burned g s ->
  step bernoulli choice g p_f quota s = Some s' ->
  well_burned g s' /\ turns_left g s' < turns_left g s.
Proof.
  intros Hs. unfold step.
  destruct (Nat.leb quota (length (visited s))); [discriminate | ].
  destruct (frontier s) as [ | u rest] eqn:Hf.
  - destruct (unburned g s) as [ | c cs] eqn:Hu; [discriminate | ].
    intros H. injection H as <-.
    set (pool := c :: cs) in *.
    set (i := choice (length pool) (rng s) mod length pool).
    assert (Hin : In (nth i pool c) (unburned g s)).
    { rewrite Hu. apply nth_In. apply Nat.mod_upper_bound.
      subst pool; cbn; discriminate. }
    unfold unburned in Hin. apply filter_In in Hin as [Hg Hv].
    apply negb_true_iff in Hv.
    assert (Hw : well_burned g
                   {| visited := nth i pool c :: visited s;
                      frontier := [nth i pool c];
                      rng := advance (rng s) |}).
    { destruct Hs as [Hn Hi]. split; cbn [visited].
      - constructor; [ | exact Hn].
        intros Hin. apply mem_In in Hin. congruence.
      - intros x [<- | Hx]; [exact Hg | now apply Hi]. }
    split; [exact Hw | ].
    apply well_burned_length in Hw.
    unfold turns_left. rewrite Hf.
    cbn [visited frontier length] in *. lia.
  - intros H. injection H as <-.
    set (s0 := {| visited := visited s; frontier := rest; rng := rng s |}).
    assert (H0 : well_burned g s0) by exact Hs.
    destruct (spread_invariant (neighbors g u) s0 H0) as [Hw Hl].
    split; [exact Hw | ]. subst s0.
    unfold turns_left in *. rewrite Hf.
    cbn [visited frontier length] in *. lia.
Qed.

(** With more fuel than turns left the loop runs to its end. *)
Lemma burn_total (fuel : nat) :
  forall s, well_burned g s -> turns_left g s < fuel ->
    exists s',
      burn bernoulli choice fuel g p_f quota s = Some s' /\
      well_burned g s' /\
      step bernoulli choice g p_f quota s' = None.
Proof.
  induction fuel as [ | fuel IH]; intros s Hs Hlt; [lia | ].
  cbn [burn].
  destruct (step bernoulli choice g p_f quota s) as [s1 | ] eqn:E.
  - destruct (step_progress s s1 Hs E) as [Hw Hl].
    apply IH; [exact Hw | lia].
  - exists s. repeat split; try apply Hs. exact E.
Qed.

End ForestFireFacts.

(** ** What the constructors receive *)

Lemma config_value_shape dataset args k v :
  config_value dataset args k = Some v ->
  In k config_names /\ is_generator v = false /\ (forall z, v <> PyInt z).
Proof.
  unfold config_value, config_names. intros H.
  repeat match type of H with
  | context [String.eqb ?a ?b] =>
      destruct (String.eqb_spec a b) as [? | ?]
  end;
  cbv iota in H; try discriminate H; injection H as <-; subst k;
  (split; [simpl; tauto | ]);
  try (split; [reflexivity | discriminate]);
  match goal with
  | |- context [py_opt_str ?o] =>
      destruct o; (split; [reflexivity | discriminate])
  end.
Qed.

Lemma in_combine_of_right {A B : Type} (ks : list A) (vs : list B) (v : B) :
  length vs = length ks -> In v vs -> exists k, In (k, v) (combine ks vs).
Proof.
  revert ks. induction vs as [ | x vs IH]; intros ks Hl Hin; [contradiction | ].
  destruct ks as [ | k ks]; [discriminate | ].
  destruct Hin as [<- | Hin].
  - exists k. left; reflexivity.
  - destruct (IH ks) as [k' Hk']; [now injection Hl | exact Hin | ].
    exists k'. right; exact Hk'.
Qed.

(** Every value a configured instance holds is bound to a parameter. *)
Lemma configured_values dataset args c self v :
  configured dataset args c self ->
  In v (so_args self ++ map snd (so_kwargs self)) ->
  exists k, In (k, v) (bound_args self) /\
            config_value dataset args k = Some v.
Proof.
  intros (Hc & Hlen & _ & Hval) Hin.
  assert (Hb : exists k, In (k, v) (bound_args self)).
  { unfold bound_args. apply in_app_or in Hin as [Hin | Hin].
    - destruct (in_combine_of_right (positional_names (so_class self))
                  (so_args self) v) as [k Hk]; [now rewrite Hc | exact Hin | ].
      exists k. apply in_or_app. left; exact Hk.
    - apply in_map_iff in Hin as ([k v'] & E & Hk). cbn in E. subst v'.
      exists k. apply in_or_app. right; exact Hk. }
  destruct Hb as [k Hk]. exists k. split; [exact Hk | now apply Hval].
Qed.

(** ** Seeding *)

Lemma set_seeds_world (m : Machine) :
  world (set_seeds m)
  = mkWorld (seeded 42) (seeded 42) (seeded 42) (seeded 42) 1
            (heap (world m)).
Proof. reflexivity. Qed.

Lemma set_seeds_trace (m : Machine) :
  trace (set_seeds m)
  = trace m ++ [EvSetNumThreads 1; EvSeed NumpyRandom 42; EvSeed TorchCPU 42;
                EvSeed TorchCUDA 42; EvSeed PyRandom 42].
Proof.
  unfold set_seeds, do_seed. cbn [trace emit with_world].
  rewrite <- !app_assoc. reflexivity.
Qed.

(** [main] adds its events after those already in the trace, the parsing
    of the arguments first. *)
Lemma main_from_arguments_trace env cl m :
  exists rest,
    trace (fst (main_from_arguments env cl m))
    = trace m ++ EvParseArgs :: rest.
Proof.
  unfold main_from_arguments. cbv zeta.
  match goal with
  | |- context [EvLoadDataset (dataset ?a)] => set (args := a)
  end.
  match goal with
  | |- context [emit (EvLoadDataset (dataset args)) ?mm] => set (m3 := mm)
  end.
  assert (H3 : exists r3, trace m3 = trace m ++ EvParseArgs :: r3).
  { subst m3. destruct (log_dir args) as [[ | a d] | ];
      cbn [trace emit]; rewrite <- !app_assoc; eexists; reflexivity. }
  destruct H3 as [r3 H3].
  cbn [world emit].
  destruct (load_dataset env (dataset args) (world m3)) as [w [e | d]];
    cbn [fst].
  - cbn [trace emit with_world]. rewrite H3, <- app_assoc.
    eexists; reflexivity.
  - destruct (sample_graph_tail env d args
                (with_world w (emit (EvLoadDataset (dataset args)) m3)))
      as (tail & -> & _).
    cbn [trace emit with_world]. rewrite H3, <- !app_assoc.
    eexists; reflexivity.
Qed.

(** ** Properties of the specification, settled on the code *)

(** C1.  For every sampler name of the enum, [sample_graph] constructs
    exactly one instance, of the class the name stands for, with exactly
    the parameters of that class, each bound to its configured value
    ([p] to [args.prob], [method], [homophilic_prob], [p_f], [mask_path],
    [directed] to the dataset's flag for the edge samplers, and the cache
    directory to [args.checkpoint_dir]); and, the constructor having
    returned, it calls [sample_graph] of that instance exactly once, on
    the dataset's graph. *)
Theorem dispatch_constructs_and_samples_once env dataset args m :
  In (sampler args) sampler_names ->
  exists c self tail,
    strategy_class (sampler args) = Some c /\
    configured dataset args c self /\
    trace (out_machine (sample_graph env dataset args m)) = trace m ++ tail /\
    constructions tail = [self] /\
    (snd (run_init env self (world m)) = None ->
     sample_calls tail = [(self, ds_graph dataset)]).
Proof.
  intros H. apply strategy_class_names in H.
  destruct (strategy_class (sampler args)) as [c | ] eqn:E; [ | congruence].
  destruct (sample_graph_recognized env dataset args m c E)
    as (self & Hc & ->).
  destruct (sample_with_trace env dataset self m)
    as (tail & -> & Hk & _ & Hs).
  exists c, self. eexists. repeat split; try apply Hc.
  - cbn [constructions]. now rewrite Hk, self_eta.
  - intros Hi. cbn [sample_calls]. now apply Hs.
Qed.

Lemma dispatch_constructs_and_samples_once_witness :
  In "label_edge" sampler_names /\
  exists self tail,
    so_class self = LabelEdgeSampler /\
    trace (out_machine
             (sample_graph full_env ring_dataset
                (parse_arguments (command_line (Some "label_edge") None))
                (mkMachine (fresh_world 7) [])))
    = tail /\
    constructions tail = [self] /\
    sample_calls tail = [(self, PyGraph 0)].
Proof.
  split; [simpl; tauto | ].
  destruct (dispatch_constructs_and_samples_once full_env ring_dataset
              (parse_arguments (command_line (Some "label_edge") None))
              (mkMachine (fresh_world 7) []))
    as (c & self & tail & Hc & Hconf & Ht & Hk & Hs); [simpl; tauto | ].
  exists self, tail. repeat split.
  - destruct Hconf as [-> _]. injection Hc as <-. reflexivity.
  - exact Ht.
  - exact Hk.
  - apply Hs.
    destruct Hconf as [Hcl _]. unfold run_init. rewrite Hcl.
    injection Hc as <-. reflexivity.
Defined.

(** C2, as the specification words it, fails: a name outside the enum does
    not end in a [ConfigurationError]. *)
Lemma unknown_name_is_not_configuration_error :
  ~ In "random_walk" sampler_names /\
  ~ raises_configuration_error full_env ring_dataset
      (parse_arguments (command_line (Some "random_walk") None))
      (mkMachine (fresh_world 7) []).
Proof.
  split.
  - simpl. intuition discriminate.
  - unfold raises_configuration_error. vm_compute. discriminate.
Qed.

(** C2, amended.  For every sampler name outside the enum, dispatch ends
    in the interpreter's [UnboundLocalError] for the local [sampler] (the
    code has no [ConfigurationError]); the error reaches the caller as it
    is, and nothing is constructed or sampled on the way, so there is no
    fallback to [FullSampler]. *)
Theorem unknown_name_raises_unbound_local env dataset args m :
  ~ In (sampler args) sampler_names ->
  out_result (sample_graph env dataset args m)
  = inl (UnboundLocalError "sampler") /\
  trace (out_machine (sample_graph env dataset args m)) = trace m.
Proof.
  intros H. rewrite (sample_graph_unbound env dataset args m H).
  split; reflexivity.
Qed.

Lemma unknown_name_raises_unbound_local_witness :
  ~ In "random_walk" sampler_names /\
  out_result
    (sample_graph full_env ring_dataset
       (parse_arguments (command_line (Some "random_walk") None))
       (mkMachine (fresh_world 7) []))
  = inl (UnboundLocalError "sampler").
Proof.
  assert (H : ~ In (sampler (parse_arguments
                               (command_line (Some "random_walk") None)))
                   sampler_names)
    by (simpl; intuition discriminate).
  split; [exact H | ].
  exact (proj1 (unknown_name_raises_unbound_local full_env ring_dataset
                  _ (mkMachine (fresh_world 7) []) H)).
Defined.




(** C4.  The base class does not keep the contract its documentation
    states: [GraphSampler.sample_graph] returns [None], which is no graph,
    for every argument and in every environment. *)
Theorem GraphSampler_sample_graph_returns_None env g w :
  run_sample_graph env (mkSampler GraphSampler [] []) g w = (w, inr PyNone) /\
  is_graph PyNone = false.
Proof. split; reflexivity. Qed.



(** C6, as the specification words it, fails: the forest fire sampler is
    invoked without any generator among the values it receives. *)
Lemma forest_fire_receives_no_generator :
  ~ generator_threaded full_env ring_dataset
      (parse_arguments (command_line (Some "forest_fire") None))
      (fresh_world 7).
Proof.
  unfold generator_threaded. cbv zeta. intros H.
  specialize (H (mkSampler ForestFireSampler []
                   [("p", PyFloat 0.5%float); ("p_f", PyFloat 0.5%float);
                    ("graph_save_dir", PyNone)])
                (PyGraph 0)).
  assert (F : false = true); [ | discriminate F].
  apply H. vm_compute. left. reflexivity.
Qed.

(** C6, amended.  Randomness is ambient: [set_seeds] seeds the four global
    generators, and no sampler invocation receives a generator.  The
    constructor is given configuration values only, none of which is a
    generator, and [sample_graph] is given the dataset's graph and
    nothing else. *)
Theorem generators_are_ambient env dataset args m :
  (forall g, generator_state (world (set_seeds m)) g = seeded 42) /\
  exists tail,
    trace (out_machine (sample_graph env dataset args m)) = trace m ++ tail /\
    forall self g, In (self, g) (sample_calls tail) ->
      g = ds_graph dataset /\
      existsb is_generator (so_args self ++ map snd (so_kwargs self)) = false.
Proof.
  split; [intros []; reflexivity | ].
  destruct (sample_graph_tail env dataset args m) as (tail & Ht & Hk & Hs).
  exists tail. split; [exact Ht | ]. intros self g Hin.
  destruct (Hs self g Hin) as [-> Hc]. split; [reflexivity | ].
  destruct (Hk self Hc) as (c & _ & Hconf).
  destruct (existsb is_generator _) eqn:E; [ | reflexivity].
  apply existsb_exists in E as (v & Hv & Hg).
  destruct (configured_values dataset args c self v Hconf Hv) as (k & _ & Hcv).
  apply config_value_shape in Hcv as (_ & Hng & _). congruence.
Qed.

(** C7.  With [FullSampler] as the specification describes it, the driver
    run with [--sampler full] hands the dataset the very graph object it
    held: the same reference, in an unchanged world (no graph is
    allocated and none is modified), so node set, edge set, labels and
    features are those of the original graph. *)
Theorem full_sampler_is_identity env dataset args m :
  sampler args = "full" ->
  full_sampler_as_specified env ->
  let o := sample_graph env dataset args m in
  out_result o = inr tt /\
  sample_calls (trace (out_machine o))
  = sample_calls (trace m)
    ++ [(mkSampler FullSampler [py_opt_str (checkpoint_dir args)] [],
         ds_graph dataset)] /\
  ds_graph (out_dataset o) = ds_graph dataset /\
  world (out_machine o) = world m /\
  deref (world (out_machine o)) (ds_graph (out_dataset o))
  = deref (world m) (ds_graph dataset).
Proof.
  intros Hname Hfull. cbv zeta.
  unfold sample_graph, select_sampler. rewrite Hname.
  cbn [String.eqb Ascii.eqb Bool.eqb].
  unfold construct, call_sample_graph, run_init, run_sample_graph.
  cbn [so_class world emit with_world].
  destruct (Hfull (mkSampler FullSampler [py_opt_str (checkpoint_dir args)] [])
              eq_refl) as [Hi Hs].
  rewrite Hi. unfold FullSamplerSpec.init. cbn.
  rewrite Hs. unfold FullSamplerSpec.sample_graph. cbn.
  repeat split.
  rewrite <- !app_assoc.
  assert (A : forall t u, sample_calls (t ++ u)
                          = sample_calls t ++ sample_calls u).
  { induction t as [ | [] t IH]; intros u; cbn; rewrite ?IH; reflexivity. }
  rewrite A. reflexivity.
Qed.

Lemma full_sampler_is_identity_witness :
  full_sampler_as_specified full_env /\
  ds_graph
    (out_dataset
       (sample_graph full_env ring_dataset
          (parse_arguments (command_line None None))
          (mkMachine (fresh_world 7) [])))
  = PyGraph 0.
Proof.
  assert (H : full_sampler_as_specified full_env).
  { intros self _. split; reflexivity. }
  split; [exact H | ].
  destruct (full_sampler_is_identity full_env ring_dataset
              (parse_arguments (command_line None None))
              (mkMachine (fresh_world 7) []) eq_refl H)
    as (_ & _ & Hg & _).
  exact Hg.
Defined.

(** C8.  The forest fire of the specification always terminates: on every
    graph, for every outcome of the random draws, the loop ends within
    two turns per node and one more, and the sampler returns a graph.  No
    node is burned twice (the burn order has no repetition), only nodes
    of the graph are burned, so at most as many as the graph has. *)
Theorem forest_fire_terminates_without_reburning
    (bernoulli : PrimFloat.float -> gen_state -> bool)
    (choice : nat -> gen_state -> nat)
    (target_count : PrimFloat.float -> nat -> nat)
    (g : Graph) (p p_f : PrimFloat.float) (r : gen_state) :
  exists s,
    ForestFireSpec.burn bernoulli choice (2 * length (nodes g) + 1) g p_f
      (target_count p (length (nodes g))) (ForestFireSpec.ignition r)
    = Some s /\
    ForestFireSpec.step bernoulli choice g p_f
      (target_count p (length (nodes g))) s = None /\
    NoDup (ForestFireSpec.visited s) /\
    incl (ForestFireSpec.visited s) (nodes g) /\
    length (ForestFireSpec.visited s) <= length (nodes g) /\
    ForestFireSpec.sample_graph bernoulli choice target_count g p p_f r
    = Some (ForestFireSpec.induced_subgraph g (ForestFireSpec.visited s),
            ForestFireSpec.rng s).
Proof.
  destruct (burn_total bernoulli choice g p_f
              (target_count p (length (nodes g)))
              (2 * length (nodes g) + 1) (ForestFireSpec.ignition r))
    as (s & Hb & Hw & Hstop).
  - split; [constructor | intros x []].
  - unfold ForestFireSpec.turns_left. cbn. lia.
  - exists s. split; [exact Hb | ]. split; [exact Hstop | ].
    split; [apply Hw | ]. split; [apply Hw | ].
    split; [now apply well_burned_length | ].
    unfold ForestFireSpec.sample_graph, ForestFireSpec.run.
    now rewrite Hb.
Qed.

(** On the ring of six, with every trial a success, the fire started at
    node 0 burns its two neighbours, then theirs, and ends at node 3. *)
Example forest_fire_on_ring :
  option_map ForestFireSpec.visited
    (ForestFireSpec.run always_ignite pick_by_position whole_graph
       ring6 1%float 1%float (seeded 42))
  = Some [3; 4; 2; 5; 1; 0].
Proof. vm_compute. reflexivity. Qed.

(** C9.  When [args.sampler] is none of the eight names, [sample_graph]
    raises with the machine exactly as it found it: no sampler was
    constructed, [set_sampled_graph] was not called, and the dataset,
    its graph included, is the one passed in. *)
Theorem dispatch_failure_is_atomic env dataset args m :
  ~ In (sampler args) sampler_names ->
  let o := sample_graph env dataset args m in
  (exists e, out_result o = inl e) /\
  out_machine o = m /\
  constructions (trace (out_machine o)) = constructions (trace m) /\
  set_graph_calls (trace (out_machine o)) = set_graph_calls (trace m) /\
  out_dataset o = dataset /\
  ds_graph (out_dataset o) = ds_graph dataset.
Proof.
  intros H. cbv zeta. rewrite (sample_graph_unbound env dataset args m H).
  cbn [out_result out_machine out_dataset].
  split; [eexists; reflexivity | ]. repeat split.
Qed.

Lemma dispatch_failure_is_atomic_witness :
  ~ In "metropolis" sampler_names /\
  out_dataset
    (sample_graph full_env ring_dataset
       (parse_arguments (command_line (Some "metropolis") None))
       (mkMachine (fresh_world 7) []))
  = ring_dataset.
Proof.
  assert (H : ~ In (sampler (parse_arguments
                               (command_line (Some "metropolis") None)))
                   sampler_names)
    by (simpl; intuition discriminate).
  split; [exact H | ].
  destruct (dispatch_failure_is_atomic full_env ring_dataset _
              (mkMachine (fresh_world 7) []) H)
    as (_ & _ & _ & _ & Hd & _).
  exact Hd.
Defined.


(** ** Further properties of the driver *)

Lemma constructions_app (t u : list event) :
  constructions (t ++ u) = constructions t ++ constructions u.
Proof.
  induction t as [ | [] t IH]; cbn; rewrite ?IH; reflexivity.
Qed.

Lemma sample_calls_app (t u : list event) :
  sample_calls (t ++ u) = sample_calls t ++ sample_calls u.
Proof.
  induction t as [ | [] t IH]; cbn; rewrite ?IH; reflexivity.
Qed.

Lemma set_graph_calls_app (t u : list event) :
  set_graph_calls (t ++ u) = set_graph_calls t ++ set_graph_calls u.
Proof.
  induction t as [ | [] t IH]; cbn; rewrite ?IH; reflexivity.
Qed.

(** The whole behaviour of [sample_graph], by the way it ends. *)
Lemma sample_graph_cases env dataset args m :
  (~ In (sampler args) sampler_names /\
   sample_graph env dataset args m
   = mkOutcome dataset m (inl (UnboundLocalError "sampler")))
  \/
  exists c self,
    strategy_class (sampler args) = Some c /\
    configured dataset args c self /\
    let g := ds_graph dataset in
    let built := EvConstruct (so_class self) (so_args self) (so_kwargs self) in
    (exists w e,
        run_init env self (world m) = (w, Some e) /\
        sample_graph env dataset args m
        = mkOutcome dataset (mkMachine w (trace m ++ [built])) (inl e))
    \/
    (exists w w2 e,
        run_init env self (world m) = (w, None) /\
        run_sample_graph env self g w = (w2, inl e) /\
        sample_graph env dataset args m
        = mkOutcome dataset
            (mkMachine w2 (trace m ++ [built; EvSampleGraph self g]))
            (inl e))
    \/
    (exists w w2 v,
        run_init env self (world m) = (w, None) /\
        run_sample_graph env self g w = (w2, inr v) /\
        sample_graph env dataset args m
        = mkOutcome (set_sampled_graph dataset v)
            (mkMachine w2
               (trace m ++ [built; EvSampleGraph self g; EvSetSampledGraph v;
                            EvPrint "Sampled the graph"]))
            (inr tt)).
Proof.
  destruct (strategy_class (sampler args)) as [c | ] eqn:E.
  - right.
    destruct (sample_graph_recognized env dataset args m c E)
      as (self & Hc & ->).
    exists c, self. split; [reflexivity | ]. split; [exact Hc | ].
    cbv zeta.
    destruct (sample_with_cases env dataset self m)
      as [(w & e & Hi & ->) | [(w & w2 & e & Hi & Hs & ->)
                              | (w & w2 & v & Hi & Hs & ->)]].
    + left. exists w, e. split; [exact Hi | reflexivity].
    + right; left. exists w, w2, e. split; [exact Hi | ].
      split; [exact Hs | ].
      unfold emit, with_world; cbn [world trace].
      rewrite <- !app_assoc. reflexivity.
    + right; right. exists w, w2, v. split; [exact Hi | ].
      split; [exact Hs | ].
      unfold emit, with_world; cbn [world trace].
      rewrite <- !app_assoc. reflexivity.
  - left. assert (H : ~ In (sampler args) sampler_names).
    { intros H. apply strategy_class_names in H. contradiction. }
    split; [exact H | now apply sample_graph_unbound].
Qed.

(** [main] up to sampling, spelled out. *)
Lemma main_from_arguments_shape env cl m :
  main_from_arguments env cl m
  = let args := effective_args cl in
    let pre := trace m ++ main_prelude env cl in
    match load_dataset env (dataset args) (world m) with
    | (w, inl e) => (mkMachine w pre, inl e)
    | (w, inr d) =>
        let o := sample_graph env d args (mkMachine w pre) in
        (out_machine o, inr o)
    end.
Proof.
  unfold main_from_arguments, main_prelude, selected_device. cbv zeta.
  fold (effective_args cl).
  destruct (log_dir (effective_args cl)) as [[ | a d] | ];
    unfold emit, with_world; cbn [world trace];
    rewrite <- !app_assoc; cbn [app];
    destruct (load_dataset env (dataset (effective_args cl)) (world m))
      as [w [e | ds]]; reflexivity.
Qed.

(** X1.  Whenever [sample_graph] raises, whatever the reason, the dataset
    is the one passed in, [set_sampled_graph] was not called and
    [Sampled the graph] was not printed. *)
Theorem sample_graph_exception_safety env dataset args m e :
  out_result (sample_graph env dataset args m) = inl e ->
  out_dataset (sample_graph env dataset args m) = dataset /\
  exists tail,
    trace (out_machine (sample_graph env dataset args m)) = trace m ++ tail /\
    set_graph_calls tail = [] /\
    ~ In (EvPrint "Sampled the graph") tail.
Proof.
  intros He.
  destruct (sample_graph_cases env dataset args m)
    as [[_ E] | (c & self & _ & _ & [(w & e' & _ & E)
                 | [(w & w2 & e' & _ & _ & E) | (w & w2 & v & _ & _ & E)]])];
    rewrite E in He |- *; cbn [out_result out_dataset out_machine trace] in *.
  - split; [reflexivity | ]. exists []. rewrite app_nil_r.
    repeat split. intros [].
  - split; [reflexivity | ]. eexists; split; [reflexivity | ].
    split; [reflexivity | ]. intros [H | []]; discriminate H.
  - split; [reflexivity | ]. eexists; split; [reflexivity | ].
    split; [reflexivity | ]. intros [H | [H | []]]; discriminate H.
  - discriminate He.
Qed.

Lemma sample_graph_exception_safety_witness :
  out_result
    (sample_graph unreadable_cache_env ring_dataset
       (parse_arguments (command_line (Some "uniform_edge") None))
       (mkMachine (fresh_world 7) []))
  = inl IOError /\
  out_dataset
    (sample_graph unreadable_cache_env ring_dataset
       (parse_arguments (command_line (Some "uniform_edge") None))
       (mkMachine (fresh_world 7) []))
  = ring_dataset.
Proof.
  split; [reflexivity | ].
  exact (proj1 (sample_graph_exception_safety unreadable_cache_env
                  ring_dataset
                  (parse_arguments (command_line (Some "uniform_edge") None))
                  (mkMachine (fresh_world 7) []) IOError eq_refl)).
Defined.

(** X2.  When [sample_graph] returns normally, exactly one sampler was
    built, of the class the name stands for, its [sample_graph] was called
    once on the dataset's graph, and the value that call returned,
    whatever it is, was handed to [set_sampled_graph] unexamined; the
    world is the one the sampler left. *)
Theorem sample_graph_success_installs_result env dataset args m :
  out_result (sample_graph env dataset args m) = inr tt ->
  exists c self w w2 v,
    strategy_class (sampler args) = Some c /\
    configured dataset args c self /\
    run_init env self (world m) = (w, None) /\
    run_sample_graph env self (ds_graph dataset) w = (w2, inr v) /\
    out_dataset (sample_graph env dataset args m)
    = set_sampled_graph dataset v /\
    world (out_machine (sample_graph env dataset args m)) = w2 /\
    trace (out_machine (sample_graph env dataset args m))
    = trace m
      ++ [EvConstruct (so_class self) (so_args self) (so_kwargs self);
          EvSampleGraph self (ds_graph dataset);
          EvSetSampledGraph v;
          EvPrint "Sampled the graph"].
Proof.
  intros He.
  destruct (sample_graph_cases env dataset args m)
    as [[_ E] | (c & self & Hc & Hconf & [(w & e' & _ & E)
                 | [(w & w2 & e' & _ & _ & E) | (w & w2 & v & Hi & Hs & E)]])];
    rewrite E in He |- *; cbn [out_result] in He; try discriminate He.
  exists c, self, w, w2, v.
  repeat split; first [assumption | reflexivity | apply Hconf].
Qed.

Lemma sample_graph_success_installs_result_witness :
  out_result
    (sample_graph full_env ring_dataset
       (parse_arguments (command_line (Some "degree_node") None))
       (mkMachine (fresh_world 7) []))
  = inr tt /\
  exists self v,
    trace (out_machine
             (sample_graph full_env ring_dataset
                (parse_arguments (command_line (Some "degree_node") None))
                (mkMachine (fresh_world 7) [])))
    = [EvConstruct (so_class self) (so_args self) (so_kwargs self);
       EvSampleGraph self (PyGraph 0);
       EvSetSampledGraph v;
       EvPrint "Sampled the graph"].
Proof.
  split; [reflexivity | ].
  destruct (sample_graph_success_installs_result full_env ring_dataset
              (parse_arguments (command_line (Some "degree_node") None))
              (mkMachine (fresh_world 7) []) eq_refl)
    as (c & self & w & w2 & v & _ & _ & _ & _ & _ & _ & Ht).
  exists self, v. exact Ht.
Defined.

(** X3.  For a sampler name of the enum, an exception of the sampler's
    constructor or of its [sample_graph] leaves [sample_graph] as it is;
    after a failed constructor nothing is sampled, and nothing is rolled
    back: the world is the one the failing call left. *)
Theorem library_errors_pass_unmodified env dataset args m :
  In (sampler args) sampler_names ->
  exists c self,
    strategy_class (sampler args) = Some c /\
    configured dataset args c self /\
    (forall w e,
        run_init env self (world m) = (w, Some e) ->
        out_result (sample_graph env dataset args m) = inl e /\
        world (out_machine (sample_graph env dataset args m)) = w /\
        sample_calls (trace (out_machine (sample_graph env dataset args m)))
        = sample_calls (trace m)) /\
    (forall w w2 e,
        run_init env self (world m) = (w, None) ->
        run_sample_graph env self (ds_graph dataset) w = (w2, inl e) ->
        out_result (sample_graph env dataset args m) = inl e /\
        world (out_machine (sample_graph env dataset args m)) = w2).
Proof.
  intros Hn.
  destruct (sample_graph_cases env dataset args m)
    as [[Hno _] | (c & self & Hc & Hconf & H)]; [contradiction | ].
  exists c, self. split; [exact Hc | ]. split; [exact Hconf | ].
  cbv zeta in H. split.
  - intros w e Hi.
    destruct H as [(w' & e' & Hi' & E)
                  | [(w' & w2 & e' & Hi' & _ & E)
                    | (w' & w2 & v & Hi' & _ & E)]];
      rewrite Hi in Hi'; try discriminate Hi'.
    injection Hi' as <- <-. rewrite E.
    cbn [out_result out_machine world trace].
    rewrite sample_calls_app. cbn. rewrite app_nil_r. repeat split.
  - intros w w2 e Hi Hs.
    destruct H as [(w' & e' & Hi' & E)
                  | [(w' & w2' & e' & Hi' & Hs' & E)
                    | (w' & w2' & v & Hi' & Hs' & E)]];
      rewrite Hi in Hi'; try discriminate Hi';
      injection Hi' as <-; rewrite Hs in Hs'; try discriminate Hs'.
    injection Hs' as <- <-. rewrite E. split; reflexivity.
Qed.

Lemma library_errors_pass_unmodified_witness :
  In "mask_gcn" sampler_names /\
  out_result
    (sample_graph unreadable_cache_env ring_dataset
       (parse_arguments (command_line (Some "mask_gcn") None))
       (mkMachine (fresh_world 7) []))
  = inl IOError.
Proof.
  split; [simpl; tauto | ].
  destruct (library_errors_pass_unmodified unreadable_cache_env ring_dataset
              (parse_arguments (command_line (Some "mask_gcn") None))
              (mkMachine (fresh_world 7) []))
    as (c & self & Hc & Hconf & _ & Hs); [simpl; tauto | ].
  apply (Hs (fresh_world 7) (fresh_world 7) IOError).
  - destruct Hconf as [Hcl _]. unfold run_init. rewrite Hcl.
    injection Hc as <-. reflexivity.
  - destruct Hconf as [Hcl _]. unfold run_sample_graph. rewrite Hcl.
    injection Hc as <-. reflexivity.
Defined.

(** ** Further properties of [main] *)

(** Apart from the batch size and the checkpoint directory, [main] works
    with the arguments as parsed. *)
Lemma effective_args_parsed (cl : CmdLine) :
  sampler (effective_args cl) = or_default (cl_sampler cl) "full" /\
  dataset (effective_args cl) = or_default (cl_dataset cl) "ogbn-arxiv" /\
  log_dir (effective_args cl) = cl_log_dir cl /\
  checkpoint_dir (effective_args cl)
  = (if truthy (cl_log_dir cl) && negb (truthy (cl_checkpoint_dir cl))
     then cl_log_dir cl else cl_checkpoint_dir cl) /\
  batch_size (effective_args cl)
  = (if String.eqb (or_default (cl_dataset cl) "ogbn-arxiv") "ogbn-products"
     then 10000%Z else or_default (cl_batch_size cl) 1024%Z).
Proof.
  unfold effective_args, set_args_based_on_dataset.
  cbn [parse_arguments dataset].
  destruct (String.eqb (or_default (cl_dataset cl) "ogbn-arxiv")
              "ogbn-products");
    cbn [with_batch_size parse_arguments log_dir checkpoint_dir];
    destruct (truthy (cl_log_dir cl) && negb (truthy (cl_checkpoint_dir cl)));
    repeat split.
Qed.

Lemma main_prelude_has_no_sampling env cl :
  constructions (main_prelude env cl) = [] /\
  sample_calls (main_prelude env cl) = [] /\
  set_graph_calls (main_prelude env cl) = [].
Proof.
  unfold main_prelude.
  destruct (log_dir (effective_args cl)) as [[ | a d] | ]; repeat split.
Qed.

(** Sampling adds only events of its own kind. *)
Lemma sample_graph_events env dataset args m :
  exists tail,
    trace (out_machine (sample_graph env dataset args m)) = trace m ++ tail /\
    forallb sampling_event tail = true.
Proof.
  destruct (sample_graph_cases env dataset args m)
    as [[_ E] | (c & self & _ & _ & [(w & e' & _ & E)
                 | [(w & w2 & e' & _ & _ & E) | (w & w2 & v & _ & _ & E)]])];
    rewrite E; cbn [out_machine trace].
  - exists []. now rewrite app_nil_r.
  - eexists; split; reflexivity.
  - eexists; split; reflexivity.
  - eexists; split; reflexivity.
Qed.

Lemma sampling_events_no_writer (t : list event) :
  forallb sampling_event t = true ->
  summary_writers t = [] /\ printed_args t = [].
Proof.
  induction t as [ | e t IH]; [split; reflexivity | ].
  cbn [forallb]. intros H. apply andb_prop in H as [He Ht].
  destruct e; try discriminate He; cbn; now apply IH.
Qed.

(** X4.  When the dataset loads and the sampler name is of the enum, the
    one sampler [main] builds receives as cache directory the value of
    [--checkpoint_dir], unless that is missing or empty while [--log_dir]
    is not: then it receives the log directory. *)
Theorem cache_directory_defaults_to_log_directory env cl m o :
  snd (main_until_sampling env cl m) = inr o ->
  In (or_default (cl_sampler cl) "full") sampler_names ->
  exists self tail,
    trace (out_machine o)
    = trace (set_seeds m) ++ main_prelude env cl
      ++ EvConstruct (so_class self) (so_args self) (so_kwargs self) :: tail /\
    constructions tail = [] /\
    In ("graph_save_dir",
        py_opt_str
          (if truthy (cl_log_dir cl) && negb (truthy (cl_checkpoint_dir cl))
           then cl_log_dir cl else cl_checkpoint_dir cl))
       (bound_args self).
Proof.
  unfold main_until_sampling. generalize (set_seeds m) as m0; intros m0.
  rewrite main_from_arguments_shape. cbv zeta.
  destruct (effective_args_parsed cl) as (Hs & _ & _ & Hck & _).
  destruct (load_dataset env _ _) as [w [e | d]]; cbn [snd];
    [discriminate | ].
  intros Ho Hn. injection Ho as <-. rewrite <- Hs in Hn.
  apply strategy_class_names in Hn.
  destruct (strategy_class (sampler (effective_args cl))) as [c | ] eqn:E;
    [ | congruence].
  destruct (sample_graph_recognized env d (effective_args cl)
              (mkMachine w (trace m0 ++ main_prelude env cl)) c E)
    as (self & Hconf & ->).
  destruct (sample_with_trace env d self
              (mkMachine w (trace m0 ++ main_prelude env cl)))
    as (tail & -> & Hk & _).
  exists self, tail. cbn [trace]. rewrite <- app_assoc.
  split; [reflexivity | ]. split; [exact Hk | ].
  destruct Hconf as (Hcl & _ & Hnames & Hval).
  assert (Hin : In "graph_save_dir" (parameter_names c)).
  { revert E. unfold strategy_class.
    repeat match goal with
    | |- context [String.eqb ?a ?b] => destruct (String.eqb a b)
    end; intros E; try discriminate E; injection E as <-; simpl; tauto. }
  apply Hnames, in_map_iff in Hin as ([k v] & Ek & Hin).
  cbn in Ek. subst k.
  pose proof (Hval _ _ Hin) as Hv. cbn in Hv. injection Hv as <-.
  rewrite <- Hck. exact Hin.
Qed.

Lemma cache_directory_defaults_to_log_directory_witness :
  In "forest_fire" sampler_names /\
  exists self tail,
    trace (fst (main_until_sampling full_env
                  (command_line_dirs (Some "forest_fire") (Some "runs") None)
                  (mkMachine (fresh_world 7) [])))
    = trace (set_seeds (mkMachine (fresh_world 7) []))
      ++ main_prelude full_env
           (command_line_dirs (Some "forest_fire") (Some "runs") None)
      ++ EvConstruct (so_class self) (so_args self) (so_kwargs self) :: tail /\
    In ("graph_save_dir", PyStr "runs") (bound_args self).
Proof.
  split; [simpl; tauto | ].
  destruct (cache_directory_defaults_to_log_directory full_env
              (command_line_dirs (Some "forest_fire") (Some "runs") None)
              (mkMachine (fresh_world 7) [])
              (sample_graph full_env ring_dataset
                 (effective_args
                    (command_line_dirs (Some "forest_fire") (Some "runs") None))
                 (mkMachine
                    (world (set_seeds (mkMachine (fresh_world 7) [])))
                    (trace (set_seeds (mkMachine (fresh_world 7) []))
                     ++ main_prelude full_env
                          (command_line_dirs (Some "forest_fire")
                             (Some "runs") None)))))
    as (self & tail & Ht & _ & Hin).
  - reflexivity.
  - simpl; tauto.
  - exists self, tail. split; [exact Ht | exact Hin].
Defined.

(** X5.  [main] prints its arguments once, and for the dataset
    [ogbn-products] their batch size is 10000 whatever [--batch_size]
    said; for every other dataset it is the value typed, or 1024. *)
Theorem batch_size_is_forced_for_ogbn_products env cl m :
  exists a tail,
    trace (fst (main_until_sampling env cl m)) = trace (set_seeds m) ++ tail /\
    printed_args tail = [a] /\
    batch_size a
    = (if String.eqb (or_default (cl_dataset cl) "ogbn-arxiv") "ogbn-products"
       then 10000%Z else or_default (cl_batch_size cl) 1024%Z).
Proof.
  exists (effective_args cl).
  unfold main_until_sampling. generalize (set_seeds m) as m0; intros m0.
  rewrite main_from_arguments_shape. cbv zeta.
  assert (Hp : printed_args (main_prelude env cl) = [effective_args cl]).
  { unfold main_prelude.
    destruct (log_dir (effective_args cl)) as [[ | a d] | ]; reflexivity. }
  assert (Happ : forall t u, printed_args (t ++ u)
                             = printed_args t ++ printed_args u).
  { induction t as [ | [] t IH]; intros u; cbn; rewrite ?IH; reflexivity. }
  destruct (load_dataset env _ _) as [w [e | d]]; cbn [fst].
  - exists (main_prelude env cl). cbn [trace].
    split; [reflexivity | ]. split; [exact Hp | ].
    apply (effective_args_parsed cl).
  - destruct (sample_graph_events env d (effective_args cl)
                (mkMachine w (trace m0 ++ main_prelude env cl)))
      as (tail & -> & Hev).
    exists (main_prelude env cl ++ tail). cbn [trace].
    rewrite <- app_assoc. split; [reflexivity | ].
    rewrite Happ, Hp.
    destruct (sampling_events_no_writer tail Hev) as [_ ->].
    split; [reflexivity | apply (effective_args_parsed cl)].
Qed.

(** X6.  [main] creates the summary writer unless [--log_dir] is the
    empty string: without the option the writer is created all the same,
    with [None] as its directory.  It is created once, before the dataset
    is loaded. *)
Theorem summary_writer_unless_empty_log_dir env cl m :
  exists tail,
    trace (fst (main_until_sampling env cl m)) = trace (set_seeds m) ++ tail /\
    summary_writers tail
    = match cl_log_dir cl with
      | Some EmptyString => []
      | dir => [dir]
      end.
Proof.
  unfold main_until_sampling. generalize (set_seeds m) as m0; intros m0.
  rewrite main_from_arguments_shape. cbv zeta.
  assert (Hp : summary_writers (main_prelude env cl)
               = match cl_log_dir cl with
                 | Some EmptyString => []
                 | dir => [dir]
                 end).
  { unfold main_prelude.
    destruct (effective_args_parsed cl) as (_ & _ & -> & _).
    destruct (cl_log_dir cl) as [[ | a d] | ]; reflexivity. }
  assert (Happ : forall t u, summary_writers (t ++ u)
                             = summary_writers t ++ summary_writers u).
  { induction t as [ | [] t IH]; intros u; cbn; rewrite ?IH; reflexivity. }
  destruct (load_dataset env _ _) as [w [e | d]]; cbn [fst].
  - exists (main_prelude env cl). split; [reflexivity | exact Hp].
  - destruct (sample_graph_events env d (effective_args cl)
                (mkMachine w (trace m0 ++ main_prelude env cl)))
      as (tail & -> & Hev).
    exists (main_prelude env cl ++ tail). cbn [trace]. rewrite <- app_assoc.
    split; [reflexivity | ].
    rewrite Happ, Hp.
    destruct (sampling_events_no_writer tail Hev) as [-> _].
    now rewrite app_nil_r.
Qed.

(** X7.  A sampler name outside the enum is found out late: [main] has
    by then seeded the generators, created the summary writer and loaded
    the dataset; it then fails with the [UnboundLocalError] of
    [sample_graph], with the dataset as loaded and the world as the
    loader left it. *)
Theorem unknown_sampler_fails_after_loading env cl m w d :
  ~ In (or_default (cl_sampler cl) "full") sampler_names ->
  load_dataset env (or_default (cl_dataset cl) "ogbn-arxiv")
    (world (set_seeds m)) = (w, inr d) ->
  let after := mkMachine w (trace (set_seeds m) ++ main_prelude env cl) in
  main_until_sampling env cl m
  = (after, inr (mkOutcome d after (inl (UnboundLocalError "sampler")))) /\
  In (EvLoadDataset (or_default (cl_dataset cl) "ogbn-arxiv")) (trace after).
Proof.
  intros Hn.
  unfold main_until_sampling. generalize (set_seeds m) as m0; intros m0 Hl.
  rewrite main_from_arguments_shape. cbv zeta.
  destruct (effective_args_parsed cl) as (Hs & Hd & _).
  rewrite Hd, Hl. rewrite sample_graph_unbound by (now rewrite Hs).
  split; [reflexivity | ].
  cbn [trace]. apply in_or_app. right. unfold main_prelude.
  rewrite Hd. apply in_or_app. right. apply in_or_app. right.
  left; reflexivity.
Qed.

Lemma unknown_sampler_fails_after_loading_witness :
  ~ In "snowball" sampler_names /\
  snd (main_until_sampling full_env (command_line (Some "snowball") None)
         (mkMachine (fresh_world 7) []))
  = inr (mkOutcome ring_dataset
           (mkMachine
              (world (set_seeds (mkMachine (fresh_world 7) [])))
              (trace (set_seeds (mkMachine (fresh_world 7) []))
               ++ main_prelude full_env (command_line (Some "snowball") None)))
           (inl (UnboundLocalError "sampler"))).
Proof.
  assert (H : ~ In (or_default
                      (cl_sampler (command_line (Some "snowball") None))
                      "full") sampler_names)
    by (simpl; intuition discriminate).
  split; [exact H | ].
  destruct (unknown_sampler_fails_after_loading full_env
              (command_line (Some "snowball") None)
              (mkMachine (fresh_world 7) [])
              (world (set_seeds (mkMachine (fresh_world 7) [])))
              ring_dataset H eq_refl) as [E _].
  rewrite E. reflexivity.
Defined.



(** ** [train] *)

Section TrainFacts.

Import Training.

Variable Tensor : Type.
Variable Weights : Type.
Variable StateDict : Type.
Variable T : Torch Tensor Weights StateDict.

Lemma count_app f (t u : list (action StateDict)) :
  count f (t ++ u) = count f t + count f u.
Proof. unfold count. now rewrite filter_app, length_app. Qed.

Lemma postfix_losses_app (t u : list (action StateDict)) :
  postfix_losses (t ++ u) = postfix_losses t ++ postfix_losses u.
Proof.
  induction t as [ | [] t IH]; cbn; rewrite ?IH; reflexivity.
Qed.

(** One turn of the loop either goes through, with one optimizer step and
    the loss added, or raises after the gradients were cleared and before
    any step. *)
Lemma train_batch_cases (b : Batch Tensor) (acc : PrimFloat.float)
    (l : Learner Weights StateDict) :
  (exists loss w,
      train_batch T b acc l
      = (mkLearner w
           (actions l ++ [AcZeroGrad _; AcBackward _; AcOptimizerStep _;
                          AcPostfix _ loss]),
         inr (PrimFloat.add acc loss)))
  \/
  (exists e,
      train_batch T b acc l
      = (mkLearner (zero_grad T (weights l)) (actions l ++ [AcZeroGrad _]),
         inl e)).
Proof.
  unfold train_batch, bind, act, update, result, read, ret.
  cbn [weights actions].
  destruct (last_item (mfgs b)) as [e | last]; [right; now exists e | ].
  destruct (getitem (dstdata last) "feat") as [e | feat];
    [right; now exists e | ].
  destruct (model_call T _ feat) as [e | x]; [right; now exists e | ].
  destruct (predictor_call T _ x) as [e | pred]; [right; now exists e | ].
  destruct (getitem (dstdata last) "label") as [e | lab];
    [right; now exists e | ].
  destruct (loss_fn T pred lab) as [e | loss]; [right; now exists e | ].
  left. exists loss. eexists. rewrite <- !app_assoc. reflexivity.
Qed.

(** The loop of [train]: it goes through every batch, with as many
    optimizer steps as batches, or stops at the first batch that raises,
    whose gradients were cleared but which made no step. *)
Lemma train_loop_cases (dl : list (Batch Tensor)) :
  forall k step acc (l : Learner Weights StateDict),
  exists l' new,
    actions l' = actions l ++ new /\
    forallb is_learning new = true /\
    ((exists acc',
         train_loop T dl k step acc l
         = (l', inr (match dl with
                     | [] => step
                     | _ => Some (k + length dl - 1)
                     end, acc')) /\
         count is_optimizer_step new = length dl /\
         count is_zero_grad new = length dl /\
         acc' = fold_left PrimFloat.add (postfix_losses new) acc)
     \/
     (exists e,
         train_loop T dl k step acc l = (l', inl e) /\
         count is_optimizer_step new < length dl /\
         count is_zero_grad new = S (count is_optimizer_step new))).
Proof.
  induction dl as [ | b rest IH]; intros k step acc l.
  - exists l, []. rewrite app_nil_r. split; [reflexivity | ].
    split; [reflexivity | ].
    left. exists acc. repeat split.
  - cbn [train_loop]. unfold bind.
    destruct (train_batch_cases b acc l) as [(loss & w & E) | (e & E)];
      rewrite E.
    + destruct (IH (S k) (Some k) (PrimFloat.add acc loss)
                  (mkLearner w
                     (actions l ++ [AcZeroGrad _; AcBackward _;
                                    AcOptimizerStep _; AcPostfix _ loss])))
        as (l' & new & Ha & Hk & H).
      exists l'. eexists. cbn [actions] in Ha. rewrite <- app_assoc in Ha.
      split; [exact Ha | ].
      split; [rewrite forallb_app, Hk; reflexivity | ].
      destruct H as [(acc' & El & Hs & Hz & Hacc) | (e & El & Hs & Hz)].
      * left. exists acc'. split.
        { rewrite El. f_equal. f_equal. f_equal.
          destruct rest; cbn [length]; f_equal; lia. }
        rewrite !count_app, Hs, Hz, postfix_losses_app.
        cbn. rewrite Hacc. repeat split.
      * right. exists e. split; [exact El | ].
        rewrite !count_app, Hz. cbn. split; lia.
    + exists (mkLearner (zero_grad T (weights l))
                (actions l ++ [AcZeroGrad _])).
      exists [AcZeroGrad _]. split; [reflexivity | ].
      split; [reflexivity | ].
      right. exists e. split; [reflexivity | ]. cbn. split; lia.
Qed.

(** X9.  [train] on a loader that yields no batch raises
    [UnboundLocalError] for [step], the loop variable its last line
    reads; the two modules have been put in training mode and nothing
    else was done. *)
Theorem train_without_batches_raises (l : Learner Weights StateDict) :
  train T [] l
  = (mkLearner (predictor_mode T true (model_mode T true (weights l)))
       (actions l ++ [AcModelMode _ true; AcPredictorMode _ true]),
     inl (UnboundLocalError "step")).
Proof.
  unfold train, bind, act, update, ret, raise. cbn.
  rewrite <- app_assoc. reflexivity.
Qed.

(** X10.  When [train] returns, the loader was not empty, every batch made
    exactly one optimizer step, and the value returned is the sum of the
    losses shown on the progress bar, added in order from 0, divided by
    the number of batches. *)
Theorem train_returns_mean_loss (dl : list (Batch Tensor))
    (l l' : Learner Weights StateDict) (v : PrimFloat.float) :
  train T dl l = (l', inr v) ->
  dl <> [] /\
  exists new,
    actions l'
    = actions l ++ AcModelMode _ true :: AcPredictorMode _ true :: new /\
    count is_optimizer_step new = length dl /\
    v = PrimFloat.div
          (fold_left PrimFloat.add (postfix_losses new) 0%float)
          (float_of_nat (length dl)).
Proof.
  unfold train, bind at 1 2 3 4, act, update. cbn [weights actions].
  set (l0 := mkLearner _ _).
  destruct (train_loop_cases dl 0 None 0%float l0)
    as (l1 & new & Ha & _ & [(acc' & El & Hs & _ & Hacc) | (e & El & _)]);
    unfold bind; rewrite El; [ | discriminate].
  cbn [fst snd]. destruct dl as [ | b rest]; [discriminate | ].
  unfold ret. intros H. injection H as <- <-.
  split; [discriminate | ]. exists new. subst l0. cbn [actions] in Ha.
  rewrite <- !app_assoc in Ha. split; [exact Ha | ].
  split; [exact Hs | ]. rewrite Hacc. do 2 f_equal. cbn [length]. lia.
Qed.


(** X12.  A batch without any message flow graph makes [train] raise
    [IndexError] at [mfgs[-1]]: the gradients have been cleared, the
    model has not been called and no step was made; the batches after it
    are not looked at. *)
Theorem train_on_blockless_batch (b : Batch Tensor)
    (rest : list (Batch Tensor)) (l : Learner Weights StateDict) :
  mfgs b = [] ->
  train T (b :: rest) l
  = (mkLearner
       (zero_grad T (predictor_mode T true (model_mode T true (weights l))))
       (actions l ++ [AcModelMode _ true; AcPredictorMode _ true;
                      AcZeroGrad _]),
     inl IndexError).
Proof.
  intros Hb.
  unfold train, bind, act, update, ret, raise. cbn.
  unfold train_batch, bind, act, update, result. cbn.
  unfold last_item. rewrite Hb. cbn.
  rewrite <- !app_assoc. reflexivity.
Qed.

End TrainFacts.

(** ** The epoch loop of [main] *)

Section EpochFacts.

Import Training.

Variable Tensor : Type.
Variable Weights : Type.
Variable StateDict : Type.
Variable T : Torch Tensor Weights StateDict.

Lemma learning_counts (new : list (action StateDict)) :
  forallb is_learning new = true ->
  count is_save new = 0 /\ count is_evaluation new = 0.
Proof.
  induction new as [ | a new IH]; [split; reflexivity | ].
  cbn [forallb]. intros H. apply andb_prop in H as [Ha Hn].
  destruct (IH Hn) as [Hs He]. unfold count in *.
  destruct a; try discriminate Ha; cbn; split; assumption.
Qed.

Lemma train_learning (dl : list (Batch Tensor))
    (l : Learner Weights StateDict) :
  exists new,
    actions (fst (train T dl l)) = actions l ++ new /\
    forallb is_learning new = true.
Proof.
  unfold train, bind at 1 2 3 4, act, update. cbn [weights actions].
  set (l0 := mkLearner _ _).
  destruct (train_loop_cases Tensor Weights StateDict T dl 0 None 0%float l0)
    as (l1 & new & Ha & Hk & [(acc' & El & _) | (e & El & _)]);
    unfold bind; rewrite El; cbn [fst].
  - exists (AcModelMode _ true :: AcPredictorMode _ true :: new).
    subst l0. cbn [actions] in Ha. rewrite <- !app_assoc in Ha.
    split; [ | exact Hk].
    destruct dl; exact Ha.
  - exists (AcModelMode _ true :: AcPredictorMode _ true :: new).
    subst l0. cbn [actions] in Ha. rewrite <- !app_assoc in Ha.
    split; [exact Ha | exact Hk].
Qed.

Lemma eval_learning (dataset : Dataset) (l : Learner Weights StateDict) :
  actions (fst (eval T dataset l))
  = actions l ++ [AcModelMode _ false; AcPredictorMode _ false].
Proof.
  unfold eval, bind, act, update, result, read. cbn [weights actions].
  destruct (ndata_feat T _) as [e | feat]; cbn [fst actions];
    [now rewrite <- app_assoc | ].
  destruct (model_call T _ feat) as [e | x]; cbn [fst actions];
    now rewrite <- app_assoc.
Qed.

Ltac epoch_counts :=
  rewrite ?count_app;
  repeat match goal with
  | H : forallb is_learning ?t = true |- _ =>
      destruct (learning_counts t H) as [-> ->]; clear H
  end;
  cbn [count filter is_save is_evaluation length Nat.add Nat.b2n].

Ltac epoch_simpl :=
  cbn [learner clock_reads result_dict best_val_perf weights actions].

Ltac epoch_end Hcons :=
  let H := fresh "H" in
  intros H; injection H as <- <-;
  cbn [learner clock_reads result_dict best_val_perf weights actions
       rd_args rd_epoch_times rd_epoch_times_clock rd_val_perf rd_gnn
       rd_epoch];
  split;
  [ unfold consistent in *;
    cbn [learner clock_reads result_dict best_val_perf rd_val_perf rd_gnn
         rd_epoch] in *;
    try exact Hcons
  | split; [reflexivity | ] ].

Lemma epoch_body_effect (args : Args) (dataset : Dataset) (n epoch : Z)
    (r r' : Run Weights StateDict) (res : error + unit) :
  (0 <= epoch < n)%Z ->
  consistent n (log_every args) r ->
  epoch_body T args dataset epoch r = (r', res) ->
  consistent n (log_every args) r' /\
  rd_args (result_dict r') = rd_args (result_dict r) /\
  exists new,
    actions (learner r') = actions (learner r) ++ new /\
    match res with
    | inr _ =>
        log_every args <> 0%Z /\
        count is_save new = Nat.b2n (truthy (checkpoint_dir args)) /\
        count is_evaluation new
        = Nat.b2n (epoch mod log_every args =? 0)%Z /\
        length (rd_epoch_times (result_dict r'))
        = S (length (rd_epoch_times (result_dict r))) /\
        length (rd_epoch_times_clock (result_dict r'))
        = S (length (rd_epoch_times_clock (result_dict r)))
    | inl e =>
        count is_save new = 0 /\
        (log_every args = 0%Z ->
         count is_evaluation new = 0 /\
         (e = ZeroDivisionError \/
          exists l0 l',
            weights l0 = weights (learner r) /\
            train T (epoch_batches T epoch) l0 = (l', inl e)))
    end.
Proof.
  intros Hrange Hcons.
  unfold epoch_body, record_best, append_times, save_checkpoint.
  unfold when, bind, read_clock, perform, lift, get_result, set_result,
    get_best, set_best, get_weights, act, ret, raise.
  cbn [learner clock_reads result_dict best_val_perf weights actions].
  match goal with
  | |- context [train T ?dl ?l] =>
      destruct (train_learning dl l) as (newT & HaT & HkT);
      destruct (train T dl l) as [l1 [e | loss]] eqn:Et
  end; cbn [fst actions] in HaT.
  - epoch_end Hcons. eexists. split.
    + rewrite HaT, <- app_assoc. reflexivity.
    + epoch_counts. split; [reflexivity | ]. intros _.
      split; [reflexivity | ]. right. eexists; eexists.
      split; [ | exact Et]. reflexivity.
  - destruct (writer_created args); epoch_simpl;
      (destruct (log_every args =? 0)%Z eqn:Hle); epoch_simpl;
      try solve [ epoch_end Hcons; eexists; split;
                  [ rewrite HaT, <- !app_assoc; reflexivity
                  | epoch_counts; split; [reflexivity | ]; intros _;
                    split; [reflexivity | left; reflexivity] ] ];
      (destruct (epoch mod log_every args =? 0)%Z eqn:Hmod); epoch_simpl;
      try match goal with
      | |- context [Training.eval T dataset ?l] =>
          pose proof (eval_learning dataset l) as Hev;
          destruct (Training.eval T dataset l) as [l2 [e2 | v]];
          cbn [fst actions] in Hev; epoch_simpl
      end;
      try match goal with
      | |- context [PrimFloat.ltb ?a ?b] =>
          destruct (PrimFloat.ltb a b) eqn:Hlt; epoch_simpl
      end;
      try (destruct (checkpoint_dir args) as [dir | ];
           [ destruct (truthy (Some dir)) eqn:Htr | ]; epoch_simpl);
      epoch_end Hcons;
      try solve [ repeat split; [lia | lia | now apply Z.eqb_eq] ];
      (eexists; split;
       [ rewrite ?Hev, HaT, <- !app_assoc; reflexivity | ]);
      epoch_counts;
      try solve [ split; [now apply Z.eqb_neq | ];
                  rewrite ?length_app; cbn [length]; repeat split; lia ];
      (split; [reflexivity | ]);
      intros H0; apply Z.eqb_neq in Hle; contradiction.
Qed.

Lemma range_bounds (n : Z) : Forall (fun e => (0 <= e < n)%Z) (range n).
Proof.
  unfold range. apply Forall_forall. intros e He.
  apply in_map_iff in He as (k & <- & Hk). apply in_seq in Hk. lia.
Qed.

Lemma range_length (n : Z) : length (range n) = Z.to_nat n.
Proof. unfold range. now rewrite length_map, length_seq. Qed.

(** The loop over the epochs, as long as no epoch raises. *)
Lemma for_each_effect (args : Args) (dataset : Dataset) (n : Z)
    (epochs : list Z) :
  forall (r r' : Run Weights StateDict) (res : error + unit),
  Forall (fun e => (0 <= e < n)%Z) epochs ->
  consistent n (log_every args) r ->
  for_each epochs (epoch_body T args dataset) r = (r', res) ->
  consistent n (log_every args) r' /\
  rd_args (result_dict r') = rd_args (result_dict r) /\
  exists new,
    actions (learner r') = actions (learner r) ++ new /\
    (res = inr tt ->
     count is_save new
     = length epochs * Nat.b2n (truthy (checkpoint_dir args)) /\
     count is_evaluation new
     = length (filter (fun e => (e mod log_every args =? 0)%Z) epochs) /\
     length (rd_epoch_times (result_dict r'))
     = length (rd_epoch_times (result_dict r)) + length epochs /\
     length (rd_epoch_times_clock (result_dict r'))
     = length (rd_epoch_times_clock (result_dict r)) + length epochs).
Proof.
  induction epochs as [ | epoch rest IH]; intros r r' res Hall Hcons.
  - cbn [for_each]. unfold ret. intros H. injection H as <- <-.
    split; [exact Hcons | ]. split; [reflexivity | ].
    exists []. rewrite app_nil_r. split; [reflexivity | ].
    intros _. cbn. repeat split; lia.
  - cbn [for_each]. unfold bind.
    inversion Hall as [ | ? ? He Hrest]; subst.
    destruct (epoch_body T args dataset epoch r) as [r1 [e | []]] eqn:E1;
      destruct (epoch_body_effect args dataset n epoch r r1 _ He Hcons E1)
        as (Hc1 & Ha1 & new1 & Hn1 & H1).
    + intros H. injection H as <- <-.
      split; [exact Hc1 | ]. split; [exact Ha1 | ].
      exists new1. split; [exact Hn1 | discriminate].
    + intros H2.
      destruct (IH r1 r' res Hrest Hc1 H2) as (Hc2 & Ha2 & new2 & Hn2 & H2').
      split; [exact Hc2 | ]. split; [congruence | ].
      exists (new1 ++ new2). split; [rewrite Hn2, Hn1, app_assoc; reflexivity | ].
      intros Hres. destruct (H2' Hres) as (Hs & Hv & Ht & Htc).
      destruct H1 as (_ & Hs1 & Hv1 & Ht1 & Htc1).
      rewrite !count_app, Hs, Hv, Hs1, Hv1, Ht, Htc, Ht1, Htc1.
      cbn [length filter].
      destruct (epoch mod log_every args =? 0)%Z; cbn [length Nat.b2n];
        repeat split; lia.
Qed.

(** [main] after the loop. *)
Lemma main_epochs_shape (args : Args) (dataset : Dataset)
    (r : Run Weights StateDict) :
  main_epochs T args dataset r
  = match for_each (range (num_epochs args)) (epoch_body T args dataset) r with
    | (r1, inl e) => (r1, inl e)
    | (r1, inr _) =>
        (mkRun _ _
           (mkLearner (weights (learner r1))
              (actions (learner r1)
               ++ closing_actions args (result_dict r1)))
           (clock_reads r1) (result_dict r1) (best_val_perf r1),
         inr tt)
    end.
Proof.
  unfold main_epochs, bind at 1.
  destruct (for_each _ _ r) as [r1 [e | []]]; [reflexivity | ].
  unfold closing_actions, save_checkpoint, when, bind, perform, lift, act,
    get_result, ret.
  destruct (writer_created args); cbn [learner clock_reads result_dict
    best_val_perf weights actions];
    (destruct (checkpoint_dir args) as [dir | ];
     [destruct (truthy (Some dir)) | ]);
    cbn [learner clock_reads result_dict best_val_perf weights actions app];
    rewrite <- ?app_assoc; reflexivity.
Qed.

Lemma initial_run_consistent (args : Args) (l : Learner Weights StateDict)
    (n every : Z) :
  consistent n every (initial_run args l).
Proof. reflexivity. Qed.





End EpochFacts.

(** ** The training properties at concrete inputs *)

Lemma train_returns_mean_loss_witness :
  Training.train (toy_torch two_batches) [whole_batch; whole_batch]
    new_learner
  = (fst (Training.train (toy_torch two_batches) [whole_batch; whole_batch]
            new_learner),
     inr 2%float) /\
  [whole_batch; whole_batch] <> [].
Proof.
  assert (H : Training.train (toy_torch two_batches)
                [whole_batch; whole_batch] new_learner
              = (fst (Training.train (toy_torch two_batches)
                        [whole_batch; whole_batch] new_learner),
                 inr 2%float)) by (vm_compute; reflexivity).
  split; [exact H | ].
  exact (proj1 (train_returns_mean_loss nat nat nat (toy_torch two_batches)
                  [whole_batch; whole_batch] new_learner _ _ H)).
Defined.


Lemma train_on_blockless_batch_witness :
  Training.mfgs blockless_batch = [] /\
  snd (Training.train (toy_torch two_batches)
         [blockless_batch; whole_batch] new_learner)
  = inl Training.IndexError.
Proof.
  split; [reflexivity | ].
  rewrite (train_on_blockless_batch nat nat nat (toy_torch two_batches)
             blockless_batch [whole_batch] new_learner eq_refl).
  reflexivity.
Defined.




(** A run of three epochs by hand: evaluation at epochs 0 and 2, the
    score of epoch 2 (six optimizer steps) is the best, and the result is
    saved under [out/checkpoint.pt]. *)
Example three_epochs_by_hand :
  let r := fst (Training.main_epochs (toy_torch two_batches)
                  (parse_arguments
                     (command_line_training (Some 3%Z) (Some 2%Z)
                        (Some "out")))
                  ring_dataset
                  (Training.initial_run
                     (parse_arguments
                        (command_line_training (Some 3%Z) (Some 2%Z)
                           (Some "out")))
                     new_learner)) in
  Training.rd_val_perf (Training.result_dict r) = Some 6%float /\
  Training.rd_gnn (Training.result_dict r) = Some 6 /\
  Training.rd_epoch (Training.result_dict r) = Some 2%Z /\
  Training.weights (Training.learner r) = 6 /\
  Training.path_join "out" "checkpoint.pt" = "out/checkpoint.pt".
Proof. vm_compute. repeat split. Qed.
